(** * VectorMathing: the similarity-matching core of [main.py]

    A shallow embedding of the classes [User] and [DB] of [main.py] and
    the properties of the distance metric, the identifier allocator and
    the participant store.

    Python integers are [Z]; Python strings are [string] (UTF-8 bytes, so
    the empty string is the only falsy one); values whose type the code
    never fixes (the identifiers) are [pyval].  [DB] talks to a chromadb
    collection: its methods are programs of [prog], a free error monad over
    the calls made on [self.collection], which [run] executes against any
    [collaborator] while logging the calls.  The class [Question] and the
    Streamlit pages that call [DB] follow the same scheme, the pages as
    state transformers over the session and the collection. *)

From stdpp Require Import gmap strings list pretty sorting.

Open Scope Z_scope.

(** ** Python values, exceptions and results *)

(** The dynamically typed values the code mixes: [range(1, 1000)] yields
    integers, the collection's ids are strings. *)
Inductive pyval : Type :=
| PyInt (z : Z)
| PyStr (s : string).

#[global] Instance pyval_eq_dec : EqDecision pyval.
Proof. solve_decision. Defined.

(** The exceptions that can leave the modelled code.  [CollaboratorError]
    stands for anything chromadb itself raises. *)
Inductive exn : Type :=
| IndexError
| KeyError
| CollaboratorError.

#[global] Instance exn_eq_dec : EqDecision exn.
Proof. solve_decision. Defined.

Inductive outcome (R : Type) : Type :=
| Returned (r : R)
| Raised (e : exn).

Arguments Returned {R} r.
Arguments Raised {R} e.

(** ** The collection interface *)

(** What [collection.get] and [collection.peek] answer: parallel lists.
    Embeddings come back as numbers; they are integer-valued here. *)
Record GetResult : Type := mkGetResult {
  get_ids : list pyval;
  get_embeddings : list (list Z);
  get_metadatas : list (gmap string string);
  get_documents : list string
}.

(** What [collection.query] answers: one list of hits per query
    embedding.  A reported distance is a number the code only passes on. *)
Record QueryResult : Type := mkQueryResult {
  query_ids : list (list pyval);
  query_embeddings : list (list (list Z));
  query_metadatas : list (list (gmap string string));
  query_documents : list (list string);
  query_distances : list (list Z)
}.

(** The five methods of [self.collection] that [DB] calls, with the
    keyword arguments the source passes. *)
Inductive call : Type :=
| Upsert (ids : list string) (embeddings : list Z)
    (metadatas : gmap string string) (documents : string)
| Peek (limit : Z)
| Get (ids : list string) (include : list string)
| Count
| Query (query_embeddings : list Z) (n_results : Z) (include : list string).

#[global] Instance call_eq_dec : EqDecision call.
Proof. solve_decision. Defined.

Definition resp (c : call) : Type :=
  match c with
  | Upsert _ _ _ _ => unit
  | Peek _ => GetResult
  | Get _ _ => GetResult
  | Count => Z
  | Query _ _ _ => QueryResult
  end.

(** A method body: it returns, raises, or calls the collection and goes
    on with the answer. *)
Inductive prog (R : Type) : Type :=
| Ret (r : R)
| Throw (e : exn)
| Call (c : call) (k : resp c -> prog R).

Arguments Ret {R} r.
Arguments Throw {R} e.
Arguments Call {R} c k.

Fixpoint bind {A B : Type} (p : prog A) (f : A -> prog B) : prog B :=
  match p with
  | Ret a => f a
  | Throw e => Throw e
  | Call c k => Call c (fun x => bind (k x) f)
  end.

#[global] Instance prog_ret : MRet prog := @Ret.
#[global] Instance prog_bind : MBind prog := fun A B f p => bind p f.

Definition perform (c : call) : prog (resp c) := Call c Ret.

(** A collaborator answers every call from its state, or raises. *)
Record collaborator (S : Type) : Type := mkCollaborator {
  respond : forall c : call, S -> outcome (resp c) * S
}.

Arguments respond {S} _ c _.

(** [run h p s] executes [p] against [h] from state [s]: the outcome, the
    final state and the calls issued, in order. *)
Fixpoint run {S R : Type} (h : collaborator S) (p : prog R) (s : S)
  : outcome R * S * list call :=
  match p with
  | Ret r => (Returned r, s, [])
  | Throw e => (Raised e, s, [])
  | Call c k =>
      match respond h c s with
      | (Returned x, s') =>
          let '(o, s'', t) := run h (k x) s' in (o, s'', c :: t)
      | (Raised e, s') => (Raised e, s', [c])
      end
  end.

(** ** The Python runtime pieces the code relies on *)

Module Py.

(** [sys.maxsize] on a 64-bit build. *)
Definition maxsize : Z := 2 ^ 63 - 1.

(** [str(x)]: decimal for an integer, the string itself for a string. *)
Definition str (x : pyval) : string :=
  match x with
  | PyInt z => pretty z
  | PyStr s => s
  end.

(** Truthiness of a string: only the empty string is falsy. *)
Definition truthy (s : string) : bool :=
  match s with
  | EmptyString => false
  | String _ _ => true
  end.

(** [sum(xs)]: left to right from the start value 0. *)
Definition sum (xs : list Z) : Z := foldl Z.add 0 xs.

(** [range(a, b)]. *)
Definition range (a b : Z) : list Z := seqZ a (b - a).

(** [xs[i]] for a non-negative index. *)
Definition index {A : Type} (xs : list A) (i : nat) : prog A :=
  match xs !! i with
  | Some x => Ret x
  | None => Throw IndexError
  end.

(** [d[k]] on a dict. *)
Definition getitem (d : gmap string string) (k : string) : prog string :=
  match d !! k with
  | Some v => Ret v
  | None => Throw KeyError
  end.

(** [set(s).difference(others)] for a set of integers [s]: an integer
    stays unless some element of [others] compares equal to it, and an
    integer never equals a string.  The set is kept as a duplicate-free
    list. *)
Definition set_difference (s : list Z) (others : list pyval) : list Z :=
  filter (fun z => PyInt z ∉ others) s.

(** [random.choice(seq)]: [seq[randbelow(len(seq))]], and [IndexError] on
    an empty sequence.  [draw] is the random source; every position of
    [seq] is reached by some draw. *)
Definition choice {A : Type} (draw : nat) (seq : list A) : prog A :=
  match seq with
  | [] => Throw IndexError
  | _ :: _ => index seq (draw mod length seq)%nat
  end.

End Py.

(** ** class User *)

Module User.

Record t : Type := mk {
  name : string;
  choices : list Z;
  comment : string
}.

Definition no_answer : string := "無回答".

(** [User.__init__]. *)
Definition init (name : string) (choices : list Z) (comment : string) : t :=
  {| name := name;
     choices := choices;
     comment := if Py.truthy comment then comment else no_answer |}.

(** [User.distance]. *)
Definition distance (self user : t) : prog Z :=
  let d := Py.sum ((fun '(s, u) => (s - u) ^ 2) <$> zip (choices self) (choices user)) in
  Ret d.

End User.

(** ** class DB *)

Module DB.

(** [DB.upsert]. *)
Definition upsert (user_id : pyval) (user : User.t) : prog unit :=
  perform (Upsert [Py.str user_id] (User.choices user)
             {[ "name" := User.name user ]} (User.comment user)).

(** The set [generate_id] draws from, given the ids [peek] reported. *)
Definition available_ids (peeked : list pyval) : list Z :=
  Py.set_difference (Py.range 1 1000) peeked.

(** [DB.generate_id]; [draw] is the random source of [random.choice]. *)
Definition generate_id (draw : nat) : prog Z :=
  peeked ← perform (Peek Py.maxsize);
  user_id ← Py.choice draw (available_ids (get_ids peeked));
  mret user_id.

(** [DB.get]. *)
Definition get (user_id : pyval) : prog (option User.t) :=
  result ← perform (Get [Py.str user_id] ["embeddings"; "metadatas"; "documents"]);
  if bool_decide (length (get_ids result) = 0%nat) then mret None
  else
    meta ← Py.index (get_metadatas result) 0;
    name ← Py.getitem meta "name";
    choices ← Py.index (get_embeddings result) 0;
    text ← Py.index (get_documents result) 0;
    mret (Some (User.init name choices text)).

(** The [include] list [search] passes to [collection.query]. *)
Definition search_include : list string :=
  ["embeddings"; "metadatas"; "documents"; "distances"].

(** [DB.search]; the absent result is the pair [(None, -1.0)]. *)
Definition search (user : User.t) : prog (option User.t * Z) :=
  n ← perform Count;
  if bool_decide (n < 2) then mret (None, -1)
  else
    result ← perform (Query (User.choices user) 2 search_include);
    metas ← Py.index (query_metadatas result) 0;
    meta ← Py.index metas 1;
    name ← Py.getitem meta "name";
    embs ← Py.index (query_embeddings result) 0;
    choices ← Py.index embs 1;
    docs ← Py.index (query_documents result) 0;
    comment ← Py.index docs 1;
    dists ← Py.index (query_distances result) 0;
    distance ← Py.index dists 1;
    mret (Some (User.init name choices comment), distance).

End DB.

(** ** The chromadb collection *)

Module Chroma.

(** One stored entry: the embedding, the metadata dict and the document. *)
Record entry : Type := mkEntry {
  embedding : list Z;
  metadata : gmap string string;
  document : string
}.

(** The collection: entries by id, in insertion order. *)
Abbreviation collection := (list (string * entry)).

Definition keys (col : collection) : list string := fst <$> col.

(** Writing the entry of [k]: overwritten in place when [k] is present,
    appended otherwise. *)
Fixpoint put (k : string) (e : entry) (col : collection) : collection :=
  match col with
  | [] => [(k, e)]
  | (k', e') :: rest =>
      if decide (k = k') then (k, e) :: rest else (k', e') :: put k e rest
  end.

Definition as_get_result (col : collection) : GetResult :=
  {| get_ids := (fun ke => PyStr (fst ke)) <$> col;
     get_embeddings := (fun ke => embedding (snd ke)) <$> col;
     get_metadatas := (fun ke => metadata (snd ke)) <$> col;
     get_documents := (fun ke => document (snd ke)) <$> col |}.

(** The first [limit] entries; [limit] may be as large as [sys.maxsize]. *)
Fixpoint first_n {A : Type} (limit : Z) (xs : list A) : list A :=
  match xs with
  | [] => []
  | x :: rest => if bool_decide (0 < limit) then x :: first_n (limit - 1) rest else []
  end.

(** Squared Euclidean distance, chromadb's default space. *)
Definition l2 (q e : list Z) : Z :=
  foldr Z.add 0 (zip_with (fun x y => (x - y) ^ 2) q e).

(** Entries ranked by ascending distance to [q]; ties keep insertion
    order. *)
Fixpoint rank_insert (q : list Z) (x : string * entry) (sorted : collection)
  : collection :=
  match sorted with
  | [] => [x]
  | y :: rest =>
      if bool_decide (l2 q (embedding (snd x)) < l2 q (embedding (snd y)))
      then x :: y :: rest
      else y :: rank_insert q x rest
  end.

Definition ranked (q : list Z) (col : collection) : collection :=
  foldr (fun x acc => rank_insert q x acc) [] col.

Definition as_query_result (q : list Z) (hits : collection) : QueryResult :=
  {| query_ids := [(fun ke => PyStr (fst ke)) <$> hits];
     query_embeddings := [(fun ke => embedding (snd ke)) <$> hits];
     query_metadatas := [(fun ke => metadata (snd ke)) <$> hits];
     query_documents := [(fun ke => document (snd ke)) <$> hits];
     query_distances := [(fun ke => l2 q (embedding (snd ke))) <$> hits] |}.

(** Modelled from the spec: the external storage and search collaborator
    (the chromadb collection, which is a third-party library and not part
    of [main.py]), as section 6 describes it: upsert by key of an
    (embedding, metadata, document) triple, get by key returning the same
    triple or nothing, the [k] closest entries by ascending distance with
    their distances, and the enumeration of the stored keys.  Ids are
    strings, as chromadb has them.  Every included field is filled in. *)
Definition answer (c : call) (col : collection) : outcome (resp c) * collection :=
  match c with
  | Upsert ids emb meta doc =>
      match ids with
      | [k] => (Returned tt, put k (mkEntry emb meta doc) col)
      | _ => (Raised CollaboratorError, col)
      end
  | Peek limit => (Returned (as_get_result (first_n limit col)), col)
  | Get ids _ =>
      (Returned (as_get_result (filter (fun ke => fst ke ∈ ids) col)), col)
  | Count => (Returned (Z.of_nat (length col)), col)
  | Query q n _ =>
      (Returned (as_query_result q (first_n n (ranked q col))), col)
  end.

Definition chroma : collaborator collection := mkCollaborator collection answer.

End Chroma.

(** ** The distance of the spec, by index *)

(** [sum_sq_diff n a b] is the sum of [(a[i] - b[i])^2] over [i < n]. *)
Definition sum_sq_diff (n : nat) (a b : list Z) : Z :=
  foldr (fun i acc => (a !!! i - b !!! i) ^ 2 + acc) 0 (seq 0 n).

(** The squared differences [User.distance] sums, pair by pair. *)
Definition sq_diffs (a b : list Z) : list Z :=
  (fun '(s, u) => (s - u) ^ 2) <$> zip a b.

(** A record cut down to its first [n] answers. *)
Definition truncate (n : nat) (u : User.t) : User.t :=
  User.mk (User.name u) (take n (User.choices u)) (User.comment u).

(** Registering [user] under each identifier of [ids] in turn, through
    [DB.upsert]. *)
Definition register_all (ids : list Z) (user : User.t) : prog unit :=
  foldr (fun z rest => _ ← DB.upsert (PyInt z) user; rest) (mret tt) ids.

(** The collection after every identifier of the pool has been
    registered. *)
Definition full_collection : Chroma.collection :=
  snd (fst (run Chroma.chroma
              (register_all (Py.range 1 1000) (User.init "r" [0; 0; 0] "")) [])).

(** A collection double whose [peek] reports the integers [ids] as its
    keys, and which answers nothing else. *)
Definition int_keyed (ids : list Z) : collaborator unit :=
  mkCollaborator unit (fun c s =>
    match c return outcome (resp c) * unit with
    | Peek _ => (Returned (mkGetResult (PyInt <$> ids) [] [] []), s)
    | _ => (Raised CollaboratorError, s)
    end).


(** The two records of the spec's scenario and the collection holding
    them under the ids 1 and 2. *)
Definition record_A : User.t := User.init "A" [0; 0; 0] "".
Definition record_B : User.t := User.init "B" [4; 4; 4] "hello".

Definition collection_AB : Chroma.collection :=
  snd (fst (run Chroma.chroma
              (_ ← DB.upsert (PyInt 1) record_A; DB.upsert (PyInt 2) record_B) [])).

(** ** class Question *)

Module Question.

Record t : Type := mk {
  text : string;
  choices : list string
}.

(** What a call evaluates to: a value, or the [ValueError] of
    [tuple.index]. *)
Inductive result (A : Type) : Type :=
| Value (a : A)
| ValueError.

Arguments Value {A} a.
Arguments ValueError {A}.

(** [xs.index(x)]: the first position holding [x], [ValueError] when
    there is none. *)
Fixpoint tuple_index (x : string) (xs : list string) : result nat :=
  match xs with
  | [] => ValueError
  | y :: rest =>
      if decide (y = x) then Value 0%nat
      else match tuple_index x rest with
           | Value i => Value (S i)
           | ValueError => ValueError
           end
  end.

(** [Question.choice_index].  The argument is what [st.radio] hands
    over: one of the option strings, or [None] while nothing is selected;
    [None] is no member of a tuple of strings. *)
Definition choice_index (self : t) (choice : option string) : result (option nat) :=
  match choice with
  | Some c =>
      if bool_decide (c ∈ choices self) then
        match tuple_index c (choices self) with
        | Value i => Value (Some i)
        | ValueError => ValueError
        end
      else Value None
  | None => Value None
  end.

End Question.

(** ** Collections written through [DB.upsert] *)

(** Every entry carries a ["name"] in its metadata, as [DB.upsert]
    writes it. *)
Definition named (col : Chroma.collection) : Prop :=
  Forall (fun ke => is_Some (Chroma.metadata (snd ke) !! "name")) col.

(** The entry [DB.upsert] writes for a record. *)
Definition entry_of (user : User.t) : Chroma.entry :=
  Chroma.mkEntry (User.choices user) {[ "name" := User.name user ]}
    (User.comment user).

(** The record [DB.get] and [DB.search] rebuild from an entry that has a
    name. *)
Definition record_of (e : Chroma.entry) (name : string) : User.t :=
  User.init name (Chroma.embedding e) (Chroma.document e).

(** The entries stored under the key [k]. *)
Definition stored_under (k : string) (col : Chroma.collection) : Chroma.collection :=
  filter (fun ke : string * Chroma.entry => fst ke ∈ [k]) col.

(** ** The pages *)

(** The Streamlit script: [init_session] and the three pages.  What the
    widgets return ([st.text_input], [st.radio], [st.text_area], the
    buttons) is the input of a page run; what the script displays is
    logged as [shown] events; [st.session_state] is the record [session].
    [print_result] is logged with its two arguments, its rendering is not
    part of the model. *)
Module App.

(** What can end a page run early: an exception of the store code, or one
    of the two exceptions only the page code can meet. *)
Inductive failure : Type :=
| Exn (e : exn)
| TypeError
| ValueError.

Inductive result (A : Type) : Type :=
| Ok (a : A)
| Fail (f : failure).

Arguments Ok {A} a.
Arguments Fail {A} f.

Inductive shown : Type :=
| Subheader (body : string)
| Write (body : string)
| SidebarWrite (body : string)
| Alert (message : string)
| PrintResult (user : User.t) (distance : Z).

(** [st.session_state].  The [User] object kept under ["user"] is held
    by its name and comment: its [choices] attribute is the very list
    kept under ["choices"], which the registration page updates in
    place.  The key ["user"] is absent until a registration succeeds. *)
Record session : Type := mkSession {
  questions : list Question.t;
  name : string;
  choices : list (option nat);
  comment : string;
  user_id : Z;
  user : option (string * string)
}.

Definition set_name (v : string) (s : session) : session :=
  mkSession (questions s) v (choices s) (comment s) (user_id s) (user s).
Definition set_choices (v : list (option nat)) (s : session) : session :=
  mkSession (questions s) (name s) v (comment s) (user_id s) (user s).
Definition set_comment (v : string) (s : session) : session :=
  mkSession (questions s) (name s) (choices s) v (user_id s) (user s).
Definition set_user_id (v : Z) (s : session) : session :=
  mkSession (questions s) (name s) (choices s) (comment s) v (user s).
Definition set_user (v : string * string) (s : session) : session :=
  mkSession (questions s) (name s) (choices s) (comment s) (user_id s) (Some v).

(** [init_session], given the questions read from the file. *)
Definition init_session (qs : list Question.t) : session :=
  mkSession qs "" (replicate (length qs) None) "" 0 None.

(** The answers of a list without [None]. *)
Definition answered (cs : list (option nat)) : option (list Z) :=
  mapM (fun c : option nat => Z.of_nat <$> c) cs.

(** [choices.count(None)]. *)
Definition count_none (cs : list (option nat)) : nat :=
  length (filter (fun c : option nat => c = None) cs).

Definition line_break : string := String (Ascii.ascii_of_nat 10) "".

Definition msg_need_name : string := "ニックネームを入力してください".
Definition msg_unanswered : string := "回答していない設問があります".
Definition msg_updated : string := "更新しました。".
Definition msg_register_first : string := "先にユーザー登録をしてね・・・！".
Definition msg_not_found : string := "ユーザーが見つかりませんでした".
Definition msg_need_id : string := "ユーザーIDを入力してください".
Definition msg_nobody : string :=
  "あなた以外に登録ユーザーがいません。こんなアプリに頼るのはやめて自力で頑張りましょう。".
Definition msg_your_id (user_id : Z) : string :=
  "あなたのID: **" +:+ pretty user_id +:+ "**".
Definition msg_registered (user_id : Z) : string :=
  "登録しました。  " +:+ line_break +:+ "あなたのID: " +:+ pretty user_id.

Section pages.

Context {St : Type} (h : collaborator St).

(** The state a page run works on: the session, the collection behind
    [st.session_state["db"]], the calls made on it and the display. *)
Record world : Type := mkWorld {
  ss : session;
  db : St;
  calls : list call;
  screen : list shown
}.

(** A page: it ends with a value or a failure; what it did to the state
    before failing stays done. *)
Definition page (A : Type) : Type := world -> result A * world.

Definition pure {A : Type} (a : A) : page A := fun w => (Ok a, w).

Definition fail {A : Type} (f : failure) : page A := fun w => (Fail f, w).

Definition andthen {A B : Type} (m : page A) (k : A -> page B) : page B :=
  fun w =>
    match m w with
    | (Ok a, w') => k a w'
    | (Fail f, w') => (Fail f, w')
    end.

Definition read {A : Type} (field : session -> A) : page A :=
  fun w => (Ok (field (ss w)), w).

Definition assign (update : session -> session) : page unit :=
  fun w => (Ok tt, mkWorld (update (ss w)) (db w) (calls w) (screen w)).

Definition show (x : shown) : page unit :=
  fun w => (Ok tt, mkWorld (ss w) (db w) (calls w) (screen w ++ [x])).

(** A method call on [st.session_state["db"]]. *)
Definition on_db {A : Type} (p : prog A) : page A :=
  fun w =>
    let '(o, db', t) := run h p (db w) in
    (match o with
     | Returned a => Ok a
     | Raised e => Fail (Exn e)
     end,
     mkWorld (ss w) db' (calls w ++ t) (screen w)).

(** [aleart]. *)
Definition aleart (message : string) : page unit := show (Alert message).

(** The loop of [register_page] over the questions from position [i]
    on: [choices[i]] is read (for the radio's preselection) and then
    overwritten with the index of what the radio returned. *)
Fixpoint ask_from (i : nat) (qs : list Question.t) (radio : nat -> option string)
  : page unit :=
  match qs with
  | [] => pure tt
  | q :: rest =>
      andthen (read choices) (fun cs =>
      match cs !! i with
      | None => fail (Exn IndexError)
      | Some _ =>
          match Question.choice_index q (radio i) with
          | Question.Value v =>
              andthen (assign (set_choices (<[i := v]> cs))) (fun _ =>
              ask_from (S i) rest radio)
          | Question.ValueError => fail ValueError
          end
      end)
  end.

(** The branch of [register_page] under [if st.button(...)]. *)
Definition register_submit (draw : nat) : page unit :=
  andthen (read name) (fun nm =>
  if negb (Py.truthy nm) then aleart msg_need_name
  else
    andthen (read choices) (fun cs =>
    if bool_decide (0 < count_none cs)%nat then aleart msg_unanswered
    else
      andthen (read user_id) (fun uid =>
      andthen
        (if bool_decide (uid = 0) then
           andthen (on_db (DB.generate_id draw)) (fun new_id =>
           andthen (assign (set_user_id new_id)) (fun _ =>
           andthen (show (SidebarWrite (msg_your_id new_id))) (fun _ =>
           pure (new_id, msg_registered new_id))))
         else pure (uid, msg_updated))
        (fun '(uid, message) =>
      andthen (read comment) (fun cm =>
      match answered cs with
      | None => fail TypeError (* not reached: the count above is 0 *)
      | Some answers =>
          let user := User.init nm answers cm in
          andthen (on_db (DB.upsert (PyInt uid) user)) (fun _ =>
          andthen (assign (set_user (User.name user, User.comment user))) (fun _ =>
          aleart message))
      end))))).

(** [register_page]: [name_in], [radio] and [comment_in] are what the
    widgets return in this run, [pressed] is the button. *)
Definition register_page (name_in : string) (radio : nat -> option string)
    (comment_in : string) (pressed : bool) (draw : nat) : page unit :=
  andthen (show (Subheader "ユーザー登録")) (fun _ =>
  andthen (assign (set_name name_in)) (fun _ =>
  andthen (read questions) (fun qs =>
  andthen (ask_from 0 qs radio) (fun _ =>
  andthen (assign (set_comment comment_in)) (fun _ =>
  if pressed then register_submit draw else pure tt))))).

(** [st.session_state["user"]]: [KeyError] while the key is absent. *)
Definition read_user : page (string * string) :=
  andthen (read user) (fun u =>
  match u with
  | Some nc => pure nc
  | None => fail (Exn KeyError)
  end).

(** [search_page]: [search_query] is the text typed into the form.  The
    distance is taken from the session's record, whose choices are the
    current list under ["choices"]; a [None] among the answers that [zip]
    pairs up makes the subtraction raise [TypeError]. *)
Definition search_page (search_query : string) (pressed : bool) : page unit :=
  andthen (show (Subheader "検索")) (fun _ =>
  if pressed then
    andthen (read user_id) (fun uid =>
    if bool_decide (uid = 0) then aleart msg_register_first
    else if Py.truthy search_query then
      andthen (on_db (DB.get (PyStr search_query))) (fun result_user =>
      match result_user with
      | Some found =>
          andthen read_user (fun '(nm, cm) =>
          andthen (read choices) (fun cs =>
          match answered (take (length (User.choices found)) cs) with
          | Some mine =>
              andthen (on_db (User.distance (User.mk nm mine cm) found)) (fun d =>
              show (PrintResult found d))
          | None => fail TypeError
          end))
      | None => show (Write msg_not_found)
      end)
    else aleart msg_need_id)
  else pure tt).

(** [matching_page].  The record handed to [DB.search] has the current
    list under ["choices"] as its choices.  Should that list hold a
    [None], [DB.search] still counts first and returns the absent pair
    below two entries; otherwise chromadb rejects the query embedding. *)
Definition matching_page (pressed : bool) : page unit :=
  andthen (show (Subheader "マッチング")) (fun _ =>
  andthen (show (Write "↓ボタンを押してマッチング↓")) (fun _ =>
  if pressed then
    andthen (read user_id) (fun uid =>
    if bool_decide (uid = 0) then aleart msg_register_first
    else
      andthen read_user (fun '(nm, cm) =>
      andthen (read choices) (fun cs =>
      match answered cs with
      | Some mine =>
          andthen (on_db (DB.search (User.mk nm mine cm))) (fun '(result_user, distance) =>
          match result_user with
          | Some found => show (PrintResult found distance)
          | None => show (Write msg_nobody)
          end)
      | None =>
          andthen (on_db (perform Count)) (fun n =>
          if bool_decide (n < 2) then show (Write msg_nobody)
          else fail (Exn CollaboratorError))
      end)))
  else pure tt)).

End pages.

End App.

(** What the radio loop records for one question, and for the questions
    from position [i] on. *)
Definition recorded (q : Question.t) (selected : option string) : option nat :=
  match Question.choice_index q selected with
  | Question.Value v => v
  | Question.ValueError => None
  end.

Fixpoint asked_from (i : nat) (qs : list Question.t) (radio : nat -> option string)
  : list (option nat) :=
  match qs with
  | [] => []
  | q :: rest => recorded q (radio i) :: asked_from (S i) rest radio
  end.


(** The world once the widgets of [register_page] have been read, before
    the button is looked at. *)
Definition after_widgets {St : Type} (name_in : string)
    (radio : nat -> option string) (comment_in : string) (w : App.world (St := St))
  : App.world (St := St) :=
  App.mkWorld
    (App.mkSession (App.questions (App.ss w)) name_in
       (asked_from 0 (App.questions (App.ss w)) radio) comment_in
       (App.user_id (App.ss w)) (App.user (App.ss w)))
    (App.db w) (App.calls w) (App.screen w ++ [App.Subheader "ユーザー登録"]).

(** Every question has one of its own choices selected. *)
Definition all_selected (qs : list Question.t) (radio : nat -> option string) : Prop :=
  forall i q, qs !! i = Some q ->
    exists c, radio i = Some c /\ c ∈ Question.choices q.

(** A fresh world around a session and an empty collection. *)
Definition fresh_world (qs : list Question.t) : App.world :=
  App.mkWorld (App.init_session qs) ([] : Chroma.collection) [] [].

(** Three questions with five choices each, and a radio that selects the
    third choice everywhere. *)
Definition three_questions : list Question.t :=
  [Question.mk "q1" ["a"; "b"; "c"; "d"; "e"];
   Question.mk "q2" ["a"; "b"; "c"; "d"; "e"];
   Question.mk "q3" ["a"; "b"; "c"; "d"; "e"]].

Definition always_c (i : nat) : option string := Some "c".

(** The world after a first registration in the fresh world. *)
Definition registered_world : App.world :=
  snd (App.register_page Chroma.chroma "bob" always_c "" true 41
         (fresh_world three_questions)).


(** * Properties *)

(** ** The distance metric *)

Section distance_facts.

Implicit Types (a b : list Z) (self user : User.t).

Lemma distance_unfold self user :
  User.distance self user =
    Ret (Py.sum (sq_diffs (User.choices self) (User.choices user))).
Proof. reflexivity. Qed.

Lemma foldl_add_shift (xs : list Z) (acc : Z) :
  foldl Z.add acc xs = acc + foldr Z.add 0 xs.
Proof.
  revert acc. induction xs as [|x xs IH]; intros acc; simpl.
  - lia.
  - rewrite IH. lia.
Qed.

Lemma sum_foldr (xs : list Z) : Py.sum xs = foldr Z.add 0 xs.
Proof. unfold Py.sum. rewrite foldl_add_shift. lia. Qed.

Lemma sum_cons (x : Z) (xs : list Z) : Py.sum (x :: xs) = x + Py.sum xs.
Proof. rewrite !sum_foldr. reflexivity. Qed.

Lemma sum_sq_diff_cons n x y a b :
  sum_sq_diff (S n) (x :: a) (y :: b) = (x - y) ^ 2 + sum_sq_diff n a b.
Proof.
  unfold sum_sq_diff. rewrite <- cons_seq, <- fmap_S_seq.
  cbn [foldr]. rewrite foldr_fmap. reflexivity.
Qed.

Lemma sum_sq_diffs_index a b :
  Py.sum (sq_diffs a b) = sum_sq_diff (length a `min` length b) a b.
Proof.
  revert b. induction a as [|x a IH]; intros [|y b]; try reflexivity.
  change (sq_diffs (x :: a) (y :: b)) with ((x - y) ^ 2 :: sq_diffs a b).
  rewrite sum_cons, IH. symmetry.
  apply (sum_sq_diff_cons (length a `min` length b)).
Qed.

Lemma sq_diffs_comm a b : sq_diffs a b = sq_diffs b a.
Proof.
  revert b. induction a as [|x a IH]; intros [|y b]; try reflexivity.
  change (sq_diffs (x :: a) (y :: b)) with ((x - y) ^ 2 :: sq_diffs a b).
  change (sq_diffs (y :: b) (x :: a)) with ((y - x) ^ 2 :: sq_diffs b a).
  rewrite IH. f_equal. lia.
Qed.

Lemma sum_sq_diffs_nonneg a b : 0 <= Py.sum (sq_diffs a b).
Proof.
  revert b. induction a as [|x a IH]; intros [|y b]; try (cbn; lia).
  change (sq_diffs (x :: a) (y :: b)) with ((x - y) ^ 2 :: sq_diffs a b).
  rewrite sum_cons. specialize (IH b). nia.
Qed.

Lemma sum_sq_diffs_zero a b :
  length a = length b -> Py.sum (sq_diffs a b) = 0 -> a = b.
Proof.
  revert b. induction a as [|x a IH]; intros [|y b] Hlen Hsum;
    try discriminate; [reflexivity|].
  change (sq_diffs (x :: a) (y :: b)) with ((x - y) ^ 2 :: sq_diffs a b) in Hsum.
  rewrite sum_cons in Hsum.
  pose proof (sum_sq_diffs_nonneg a b) as Hnn.
  assert (x = y) by nia. subst y.
  f_equal. apply IH; [now injection Hlen | nia].
Qed.

Lemma sum_sq_diffs_refl a : Py.sum (sq_diffs a a) = 0.
Proof.
  induction a as [|x a IH]; [reflexivity|].
  change (sq_diffs (x :: a) (x :: a)) with ((x - x) ^ 2 :: sq_diffs a a).
  rewrite sum_cons, IH. replace (x - x) with 0 by lia. reflexivity.
Qed.

Lemma sq_diffs_take n a b :
  (length a `min` length b <= n)%nat ->
  sq_diffs (take n a) (take n b) = sq_diffs a b.
Proof.
  revert a b. induction n as [|n IH]; intros [|x a] [|y b] Hn;
    try reflexivity; simpl in Hn; try lia.
  simpl take.
  change (sq_diffs (x :: take n a) (y :: take n b))
    with ((x - y) ^ 2 :: sq_diffs (take n a) (take n b)).
  rewrite IH by lia. reflexivity.
Qed.

End distance_facts.

(** C6: for equal-length vectors [distance] is the sum over all indices
    [i] of [(a[i] - b[i])^2], and the distance between [[0,0,0]] and
    [[4,4,4]] is 48 whatever the other fields are. *)
Theorem distance_sum_of_squares (self user : User.t)
    (Hlen : length (User.choices self) = length (User.choices user)) :
  User.distance self user =
    Ret (sum_sq_diff (length (User.choices self))
           (User.choices self) (User.choices user))
  /\ forall n1 c1 n2 c2,
       User.distance (User.init n1 [0; 0; 0] c1) (User.init n2 [4; 4; 4] c2)
       = Ret 48.
Proof.
  split; [|reflexivity].
  rewrite distance_unfold, sum_sq_diffs_index, <- Hlen, Nat.min_id.
  reflexivity.
Qed.

Lemma distance_sum_of_squares_witness :
  length [1; 5; 2] = length [3; 0; 2]
  /\ User.distance (User.init "a" [1; 5; 2] "x") (User.init "b" [3; 0; 2] "")
     = Ret (sum_sq_diff 3 [1; 5; 2] [3; 0; 2])
  /\ sum_sq_diff 3 [1; 5; 2] [3; 0; 2] = 29.
Proof.
  split; [reflexivity|]. split; [|reflexivity].
  apply (distance_sum_of_squares
           (User.init "a" [1; 5; 2] "x") (User.init "b" [3; 0; 2] "")).
  reflexivity.
Defined.

(** C9: for equal-length vectors [distance] is symmetric, it is zero
    exactly when the two vectors are identical, and the distance of a
    vector to itself is zero. *)
Theorem distance_symmetric_zero_iff (self user : User.t)
    (Hlen : length (User.choices self) = length (User.choices user)) :
  User.distance self user = User.distance user self
  /\ (User.distance self user = Ret 0 <-> User.choices self = User.choices user)
  /\ User.distance self self = Ret 0.
Proof.
  rewrite !distance_unfold. split; [|split].
  - now rewrite sq_diffs_comm.
  - split.
    + intros [= H0]. now apply sum_sq_diffs_zero.
    + intros ->. now rewrite sum_sq_diffs_refl.
  - now rewrite sum_sq_diffs_refl.
Qed.

Lemma distance_symmetric_zero_iff_witness :
  length [1; 5; 2] = length [3; 0; 2]
  /\ User.distance (User.init "a" [1; 5; 2] "x") (User.init "b" [3; 0; 2] "")
     = User.distance (User.init "b" [3; 0; 2] "") (User.init "a" [1; 5; 2] "x").
Proof.
  split; [reflexivity|].
  apply (distance_symmetric_zero_iff
           (User.init "a" [1; 5; 2] "x") (User.init "b" [3; 0; 2] "")).
  reflexivity.
Defined.

(** C10: [distance] is total on any two integer lists, whatever their
    lengths: it never raises, and it returns the sum of the squared
    differences of the first [min(len(a), len(b))] pairs; the rest of the
    longer list plays no part. *)
Theorem distance_total_truncating (self user : User.t) :
  let m := (length (User.choices self) `min` length (User.choices user))%nat in
  User.distance self user =
    Ret (sum_sq_diff m (User.choices self) (User.choices user))
  /\ User.distance self user = User.distance (truncate m self) (truncate m user)
  /\ forall e, User.distance self user <> Throw e.
Proof.
  intros m. rewrite !distance_unfold. split; [|split].
  - now rewrite sum_sq_diffs_index.
  - simpl. now rewrite sq_diffs_take.
  - discriminate.
Qed.

(** C2, as the claim states it, fails: on vectors of lengths 1 and 2
    [distance] returns 0, the excess answer 5 being dropped by [zip]. *)
Lemma distance_mismatch_returns :
  length [0] <> length [0; 5]
  /\ User.distance (User.init "a" [0] "") (User.init "b" [0; 5] "") = Ret 0
  /\ ~ exists e, User.distance (User.init "a" [0] "") (User.init "b" [0; 5] "")
                 = Throw e.
Proof.
  split; [discriminate|]. split; [reflexivity|]. intros [e He]. discriminate He.
Qed.

(** C2, amended: when the lengths differ [distance] does not fail; it
    returns the sum of the squared differences over the shorter length,
    which is the distance of the two vectors cut to that length. *)
Theorem distance_mismatch_truncates (self user : User.t)
    (Hlen : length (User.choices self) <> length (User.choices user)) :
  exists d,
    User.distance self user = Ret d
    /\ d = sum_sq_diff (length (User.choices self) `min` length (User.choices user))
             (User.choices self) (User.choices user)
    /\ (length (User.choices self) < length (User.choices user) ->
        User.distance self (truncate (length (User.choices self)) user) = Ret d)%nat
    /\ (length (User.choices user) < length (User.choices self) ->
        User.distance (truncate (length (User.choices user)) self) user = Ret d)%nat.
Proof.
  eexists. split; [apply distance_unfold|]. split; [apply sum_sq_diffs_index|].
  split; intros Hlt; rewrite distance_unfold; simpl; do 2 f_equal.
  - rewrite <- (sq_diffs_take (length (User.choices self))
                  (User.choices self) (User.choices user)) by lia.
    now rewrite firstn_all.
  - rewrite <- (sq_diffs_take (length (User.choices user))
                  (User.choices self) (User.choices user)) by lia.
    now rewrite firstn_all.
Qed.

Lemma distance_mismatch_truncates_witness :
  length [3; 1] <> length [0; 5; 9]
  /\ exists d,
       User.distance (User.init "a" [3; 1] "") (User.init "b" [0; 5; 9] "") = Ret d
       /\ d = 25.
Proof.
  split; [discriminate|].
  destruct (distance_mismatch_truncates
              (User.init "a" [3; 1] "") (User.init "b" [0; 5; 9] ""))
    as (d & Hd & Hval & _); [discriminate|].
  exists d. split; [exact Hd|]. rewrite Hval. reflexivity.
Defined.

(** ** The participant record *)

(** C8, as the claim states it, fails: a record constructed with an empty
    name keeps the empty name; no sentinel is put in its place. *)
Lemma init_empty_name_kept :
  User.name (User.init "" [0; 0; 0] "hi") = ""
  /\ User.name (User.init "" [0; 0; 0] "hi") <> User.no_answer.
Proof. split; [reflexivity | discriminate]. Qed.

(** C8, amended: the constructor stores the name unchanged; the sentinel
    default applies to the comment: an empty comment is replaced by the
    sentinel, any other comment is kept, so the comment of every
    constructed record is a non-empty string. *)
Theorem init_defaults_comment (name : string) (choices : list Z)
    (comment : string) (c : Ascii.ascii) :
  User.name (User.init name choices comment) = name
  /\ User.choices (User.init name choices comment) = choices
  /\ User.comment (User.init name choices "") = User.no_answer
  /\ User.comment (User.init name choices (String c comment)) = String c comment
  /\ User.comment (User.init name choices comment) <> "".
Proof.
  repeat split. destruct comment; discriminate.
Qed.

Lemma init_comment_idem (name : string) (choices : list Z) (comment : string) :
  User.init name choices (User.comment (User.init name choices comment))
  = User.init name choices comment.
Proof. destruct comment; reflexivity. Qed.

(** ** Running programs *)

Section run_facts.

Context {S R : Type} (h : collaborator S).

Lemma run_call (c : call) (k : resp c -> prog R) (s s' : S) (x : resp c) :
  respond h c s = (Returned x, s') ->
  run h (Call c k) s = (let '(o, s'', t) := run h (k x) s' in (o, s'', c :: t)).
Proof. intros Hc. simpl. now rewrite Hc. Qed.

Lemma run_call_raised (c : call) (k : resp c -> prog R) (s s' : S) (e : exn) :
  respond h c s = (Raised e, s') ->
  run h (Call c k) s = (Raised e, s', [c]).
Proof. intros Hc. simpl. now rewrite Hc. Qed.

End run_facts.

Lemma bind_ret {A B : Type} (a : A) (f : A -> prog B) : bind (Ret a) f = f a.
Proof. reflexivity. Qed.

Lemma index_lookup {A : Type} (xs : list A) (i : nat) (x : A) :
  xs !! i = Some x -> Py.index xs i = Ret x.
Proof. intros Hx. unfold Py.index. now rewrite Hx. Qed.

Lemma index_cons_0 {A : Type} (x : A) (xs : list A) : Py.index (x :: xs) 0 = Ret x.
Proof. reflexivity. Qed.

Lemma getitem_lookup (d : gmap string string) (k v : string) :
  d !! k = Some v -> Py.getitem d k = Ret v.
Proof. intros Hv. unfold Py.getitem. now rewrite Hv. Qed.

(** ** The identifier allocator *)

Lemma range_pool_length : length (Py.range 1 1000) = 999%nat.
Proof. unfold Py.range. now rewrite length_seqZ. Qed.

Lemma range_pool_lookup (i : nat) :
  (i < 999)%nat -> Py.range 1 1000 !! i = Some (1 + Z.of_nat i).
Proof. intros Hi. unfold Py.range. apply lookup_seqZ. lia. Qed.

Lemma elem_of_range_pool (z : Z) : z ∈ Py.range 1 1000 <-> 1 <= z <= 999.
Proof. unfold Py.range. rewrite elem_of_seqZ. lia. Qed.

(** String keys remove nothing from a set of integers. *)
Lemma set_difference_strings (s : list Z) (keys : list string) :
  Py.set_difference s (PyStr <$> keys) = s.
Proof.
  unfold Py.set_difference. induction s as [|z s IH]; [reflexivity|].
  rewrite filter_cons_True.
  - now rewrite IH.
  - intros Hin. apply list_elem_of_fmap in Hin as (k & Hk & _). discriminate Hk.
Qed.

(** Integer keys covering the set remove all of it. *)
Lemma set_difference_covered (s : list Z) (others : list pyval) :
  (forall z, z ∈ s -> PyInt z ∈ others) -> Py.set_difference s others = [].
Proof.
  unfold Py.set_difference. induction s as [|z s IH]; intros Hcov; [reflexivity|].
  rewrite filter_cons_False.
  - apply IH. intros z' Hz'. apply Hcov. now right.
  - intros Hnot. apply Hnot, Hcov. now left.
Qed.

Lemma choice_pool (draw : nat) :
  Py.choice draw (Py.range 1 1000) = Ret (1 + Z.of_nat (draw mod 999)).
Proof.
  assert (Hne : exists z rest, Py.range 1 1000 = z :: rest).
  { destruct (Py.range 1 1000) eqn:E; [|eauto].
    apply (f_equal length) in E. now rewrite range_pool_length in E. }
  destruct Hne as (z & rest & E). unfold Py.choice. rewrite E, <- E.
  rewrite range_pool_length. unfold Py.index.
  rewrite range_pool_lookup; [reflexivity|].
  apply Nat.mod_upper_bound. lia.
Qed.

Lemma chroma_ids_are_strings (col : Chroma.collection) :
  get_ids (Chroma.as_get_result col) = PyStr <$> Chroma.keys col.
Proof. unfold Chroma.keys. simpl. now rewrite <- list_fmap_compose. Qed.

(** Against a chromadb collection the allocator never looks at what is
    stored: the draw alone decides the identifier. *)
Lemma generate_id_ignores_collection (col : Chroma.collection) (draw : nat) :
  run Chroma.chroma (DB.generate_id draw) col
  = (Returned (1 + Z.of_nat (draw mod 999)), col, [Peek Py.maxsize]).
Proof.
  unfold DB.generate_id, mbind, prog_bind, perform. cbn [bind].
  erewrite run_call by reflexivity.
  unfold DB.available_ids. rewrite chroma_ids_are_strings, set_difference_strings.
  rewrite choice_pool. reflexivity.
Qed.

(** C1 at its failing input: after [upsert(7, R)] on an empty collection
    the key ["7"] is stored, and [generate_id] with the draw 6 returns 7,
    an identifier in use. *)
Theorem generate_id_returns_stored_id :
  let R := User.init "r" [0; 0; 0] "" in
  let col := snd (fst (run Chroma.chroma (DB.upsert (PyInt 7) R) [])) in
  Py.str (PyInt 7) ∈ Chroma.keys col
  /\ run Chroma.chroma (DB.generate_id 6) col = (Returned 7, col, [Peek Py.maxsize]).
Proof.
  intros R col. split.
  - vm_compute. left.
  - apply (generate_id_ignores_collection col 6).
Qed.

Lemma elem_of_keys_put (k k' : string) (e : Chroma.entry) (col : Chroma.collection) :
  k' = k \/ k' ∈ Chroma.keys col -> k' ∈ Chroma.keys (Chroma.put k e col).
Proof.
  unfold Chroma.keys. induction col as [|[k0 e0] col IH]; cbn [Chroma.put].
  - intros [->|Hin]; [left | now apply elem_of_nil in Hin].
  - destruct (decide (k = k0)) as [->|Hne]; cbn [fmap list_fmap fst].
    + intros [->|Hin]; [left | exact Hin].
    + intros [->|Hin].
      * right. apply IH. now left.
      * apply elem_of_cons in Hin as [->|Hin]; [left|].
        right. apply IH. now right.
Qed.

Lemma run_upsert_bind {R : Type} (user_id : pyval) (user : User.t)
    (k : unit -> prog R) (col : Chroma.collection) :
  run Chroma.chroma (bind (DB.upsert user_id user) k) col
  = (let '(o, col', t) :=
       run Chroma.chroma (k tt)
         (Chroma.put (Py.str user_id)
            (Chroma.mkEntry (User.choices user) {[ "name" := User.name user ]}
               (User.comment user)) col) in
     (o, col',
      Upsert [Py.str user_id] (User.choices user) {[ "name" := User.name user ]}
        (User.comment user) :: t)).
Proof. reflexivity. Qed.

Lemma run_register_all_cons (z : Z) (ids : list Z) (user : User.t)
    (col : Chroma.collection) :
  (run Chroma.chroma (register_all (z :: ids) user) col).1.2
  = (run Chroma.chroma (register_all ids user)
       (Chroma.put (Py.str (PyInt z))
          (Chroma.mkEntry (User.choices user) {[ "name" := User.name user ]}
             (User.comment user)) col)).1.2.
Proof.
  change (register_all (z :: ids) user)
    with (bind (DB.upsert (PyInt z) user) (fun _ => register_all ids user)).
  rewrite run_upsert_bind.
  now destruct (run Chroma.chroma _ _) as [[o c] t].
Qed.

Lemma register_all_keeps_keys (ids : list Z) (user : User.t)
    (col : Chroma.collection) (k : string) :
  k ∈ Chroma.keys col ->
  k ∈ Chroma.keys (run Chroma.chroma (register_all ids user) col).1.2.
Proof.
  revert col. induction ids as [|z ids IH]; intros col Hk; [exact Hk|].
  rewrite run_register_all_cons. apply IH, elem_of_keys_put. now right.
Qed.

Lemma register_all_stores_keys (ids : list Z) (user : User.t)
    (col : Chroma.collection) (z : Z) :
  z ∈ ids ->
  Py.str (PyInt z) ∈ Chroma.keys (run Chroma.chroma (register_all ids user) col).1.2.
Proof.
  revert col. induction ids as [|z' ids IH]; intros col Hz.
  - now apply elem_of_nil in Hz.
  - rewrite run_register_all_cons. apply elem_of_cons in Hz as [->|Hz].
    + apply register_all_keeps_keys, elem_of_keys_put. now left.
    + now apply IH.
Qed.

Lemma full_collection_covers_pool (z : Z) :
  1 <= z <= 999 -> Py.str (PyInt z) ∈ Chroma.keys full_collection.
Proof.
  intros Hz. apply register_all_stores_keys. now apply elem_of_range_pool.
Qed.

(** C5, as the claim states it, fails: with all 999 identifiers
    registered in the collection the allocator does not fail at all, it
    returns the identifier 1. *)
Lemma generate_id_full_pool_returns :
  (forall z, 1 <= z <= 999 -> Py.str (PyInt z) ∈ Chroma.keys full_collection)
  /\ fst (fst (run Chroma.chroma (DB.generate_id 0) full_collection)) = Returned 1
  /\ ~ exists e,
         fst (fst (run Chroma.chroma (DB.generate_id 0) full_collection)) = Raised e.
Proof.
  split; [exact full_collection_covers_pool|].
  rewrite generate_id_ignores_collection. split; [reflexivity|].
  intros [e He]. discriminate He.
Qed.

(** C5, amended: when every integer of 1..999 compares equal to an id
    that [peek] reports, no candidate is left and the allocator fails
    with the [IndexError] that [random.choice] raises on an empty
    sequence, after the one [peek] call; there is no error of its own
    for an exhausted pool. *)
Theorem generate_id_empty_selection {S : Type} (h : collaborator S)
    (s s' : S) (peeked : GetResult) (draw : nat)
    (Hpeek : respond h (Peek Py.maxsize) s = (Returned peeked, s'))
    (Hfull : forall z, 1 <= z <= 999 -> PyInt z ∈ get_ids peeked) :
  run h (DB.generate_id draw) s = (Raised IndexError, s', [Peek Py.maxsize]).
Proof.
  unfold DB.generate_id, mbind, prog_bind, perform. cbn [bind].
  erewrite run_call by exact Hpeek.
  unfold DB.available_ids. rewrite set_difference_covered; [reflexivity|].
  intros z Hz. apply Hfull. now apply elem_of_range_pool.
Qed.

Lemma generate_id_empty_selection_witness :
  run (int_keyed (Py.range 1 1000)) (DB.generate_id 3) tt
  = (Raised IndexError, tt, [Peek Py.maxsize]).
Proof.
  apply (generate_id_empty_selection (int_keyed (Py.range 1 1000)) tt tt
           (mkGetResult (PyInt <$> Py.range 1 1000) [] [] []) 3).
  - reflexivity.
  - intros z Hz. cbn [get_ids]. apply list_elem_of_fmap. exists z. split; [reflexivity|].
    now apply elem_of_range_pool.
Defined.

(** ** The participant store *)

Lemma filter_put_head (k : string) (e : Chroma.entry) (col : Chroma.collection) :
  exists rest,
    filter (fun ke : string * Chroma.entry => fst ke ∈ [k]) (Chroma.put k e col)
    = (k, e) :: rest.
Proof.
  induction col as [|[k' e'] col [rest IH]]; cbn [Chroma.put].
  - exists []. rewrite filter_cons_True by (cbn [fst]; left). reflexivity.
  - destruct (decide (k = k')) as [->|Hne].
    + eexists. rewrite filter_cons_True by (cbn [fst]; left). reflexivity.
    + exists rest. rewrite filter_cons_False; [exact IH|].
      cbn [fst]. intros Hin. apply list_elem_of_singleton in Hin. congruence.
Qed.

(** C7: [upsert(id, record)] followed by [get(id)] on a chromadb
    collection returns a record with the name, the choices and the
    comment that were written, for every identifier and every record the
    constructor builds. *)
Theorem upsert_then_get (col : Chroma.collection) (user_id : pyval)
    (name : string) (choices : list Z) (comment : string) :
  let user := User.init name choices comment in
  let stored :=
    Chroma.put (Py.str user_id)
      (Chroma.mkEntry choices {[ "name" := name ]} (User.comment user)) col in
  run Chroma.chroma (_ ← DB.upsert user_id user; DB.get user_id) col
  = (Returned (Some user), stored,
     [Upsert [Py.str user_id] choices {[ "name" := name ]} (User.comment user);
      Get [Py.str user_id] ["embeddings"; "metadatas"; "documents"]]).
Proof.
  intros user stored.
  unfold DB.upsert, DB.get, mbind, prog_bind, perform. cbn [bind].
  erewrite run_call by reflexivity.
  erewrite run_call by reflexivity.
  change (User.choices user) with choices. change (User.name user) with name.
  fold stored.
  destruct (filter_put_head (Py.str user_id)
              (Chroma.mkEntry choices {[ "name" := name ]} (User.comment user)) col)
    as [rest Hrest].
  fold stored in Hrest. rewrite Hrest.
  cbn [Chroma.as_get_result get_ids get_metadatas get_embeddings get_documents
       fmap list_fmap length snd fst
       Chroma.metadata Chroma.embedding Chroma.document].
  rewrite bool_decide_eq_false_2 by discriminate.
  rewrite index_cons_0, bind_ret.
  rewrite (getitem_lookup _ _ name) by apply lookup_singleton_eq.
  rewrite bind_ret, index_cons_0, bind_ret, index_cons_0, bind_ret.
  subst user. rewrite init_comment_idem. reflexivity.
Qed.

(** C4: for every record, when the collection reports fewer than 2
    entries [search] returns the absent result [(None, -1.0)] at once:
    the count is the only call made, no similarity query is issued. *)
Theorem search_small_store_absent {S : Type} (h : collaborator S)
    (s s' : S) (n : Z) (user : User.t)
    (Hcount : respond h Count s = (Returned n, s'))
    (Hsmall : n < 2) :
  run h (DB.search user) s = (Returned (None, -1), s', [Count])
  /\ forall q k inc, Query q k inc ∉ (run h (DB.search user) s).2.
Proof.
  assert (Hrun : run h (DB.search user) s = (Returned (None, -1), s', [Count])).
  { unfold DB.search, mbind, prog_bind, perform. cbn [bind].
    erewrite run_call by exact Hcount.
    now rewrite bool_decide_eq_true_2 by exact Hsmall. }
  split; [exact Hrun|].
  intros q k inc. rewrite Hrun. cbn [snd].
  intros Hin. apply list_elem_of_singleton in Hin. discriminate Hin.
Qed.

Lemma search_small_store_absent_witness :
  run Chroma.chroma (DB.search record_A) [] = (Returned (None, -1), [], [Count]).
Proof.
  apply (search_small_store_absent Chroma.chroma [] [] 0 record_A).
  - reflexivity.
  - lia.
Defined.

(** C3: when the collection reports at least 2 entries, [search] issues
    one similarity query for the record's choices with [n_results = 2],
    and returns the second hit of the answer, rebuilt as a record from
    its name, embedding and document, together with the distance reported
    for that hit. *)
Theorem search_returns_second_hit {S : Type} (h : collaborator S)
    (s s1 s2 : S) (n : Z) (user : User.t) (result : QueryResult)
    (metas : list (gmap string string)) (meta : gmap string string)
    (name : string) (embs : list (list Z)) (choices : list Z)
    (docs : list string) (comment : string) (dists : list Z) (distance : Z)
    (Hcount : respond h Count s = (Returned n, s1))
    (Hmany : 2 <= n)
    (Hquery : respond h (Query (User.choices user) 2 DB.search_include) s1
              = (Returned result, s2))
    (Hmetas : query_metadatas result !! 0%nat = Some metas)
    (Hmeta : metas !! 1%nat = Some meta)
    (Hname : meta !! "name" = Some name)
    (Hembs : query_embeddings result !! 0%nat = Some embs)
    (Hchoices : embs !! 1%nat = Some choices)
    (Hdocs : query_documents result !! 0%nat = Some docs)
    (Hcomment : docs !! 1%nat = Some comment)
    (Hdists : query_distances result !! 0%nat = Some dists)
    (Hdistance : dists !! 1%nat = Some distance) :
  run h (DB.search user) s
  = (Returned (Some (User.init name choices comment), distance), s2,
     [Count; Query (User.choices user) 2 DB.search_include]).
Proof.
  unfold DB.search, mbind, prog_bind, perform. cbn [bind].
  erewrite run_call by exact Hcount.
  rewrite bool_decide_eq_false_2 by lia. cbn [bind].
  erewrite run_call by exact Hquery.
  rewrite (index_lookup _ _ _ Hmetas), bind_ret.
  rewrite (index_lookup _ _ _ Hmeta), bind_ret.
  rewrite (getitem_lookup _ _ _ Hname), bind_ret.
  rewrite (index_lookup _ _ _ Hembs), bind_ret.
  rewrite (index_lookup _ _ _ Hchoices), bind_ret.
  rewrite (index_lookup _ _ _ Hdocs), bind_ret.
  rewrite (index_lookup _ _ _ Hcomment), bind_ret.
  rewrite (index_lookup _ _ _ Hdists), bind_ret.
  rewrite (index_lookup _ _ _ Hdistance), bind_ret.
  reflexivity.
Qed.

Lemma search_returns_second_hit_witness :
  run Chroma.chroma (DB.search record_A) collection_AB
  = (Returned (Some record_B, 48), collection_AB,
     [Count; Query [0; 0; 0] 2 DB.search_include]).
Proof.
  apply (search_returns_second_hit Chroma.chroma
           collection_AB collection_AB collection_AB 2 record_A
           (Chroma.as_query_result [0; 0; 0] collection_AB)
           [{[ "name" := "A" ]}; {[ "name" := "B" ]}] {[ "name" := "B" ]} "B"
           [[0; 0; 0]; [4; 4; 4]] [4; 4; 4]
           [User.no_answer; "hello"] "hello"
           [0; 48] 48);
    first [reflexivity | lia].
Defined.

(** ** The ranking of the collection *)

Section ranking.

Variable q : list Z.






End ranking.


(** * Further properties of the code *)

(** ** The allocator against any collection *)

Lemma choice_elem {A : Type} (draw : nat) (seq : list A) :
  seq <> [] -> exists x, Py.choice draw seq = Ret x /\ x ∈ seq.
Proof.
  destruct seq as [|y rest]; [congruence|]. intros _.
  unfold Py.choice, Py.index.
  destruct (lookup_lt_is_Some_2 (y :: rest) (draw mod length (y :: rest))%nat)
    as [x Hx].
  { apply Nat.mod_upper_bound. simpl. lia. }
  rewrite Hx. exists x. split; [reflexivity|].
  eapply list_elem_of_lookup_2, Hx.
Qed.

Lemma choice_reach {A : Type} (x : A) (seq : list A) :
  x ∈ seq -> exists draw, Py.choice draw seq = Ret x.
Proof.
  intros Hin. apply list_elem_of_lookup_1 in Hin as [i Hi].
  pose proof (lookup_lt_Some _ _ _ Hi) as Hlt.
  exists i. destruct seq as [|y rest]; [simpl in Hlt; lia|].
  unfold Py.choice, Py.index. rewrite Nat.mod_small by exact Hlt.
  now rewrite Hi.
Qed.

Lemma elem_of_available_ids (z : Z) (peeked : list pyval) :
  z ∈ DB.available_ids peeked <-> 1 <= z <= 999 /\ PyInt z ∉ peeked.
Proof.
  unfold DB.available_ids, Py.set_difference.
  rewrite list_elem_of_filter, elem_of_range_pool. tauto.
Qed.

(** Whatever collection answers the [peek], [generate_id] either returns
    an integer of 1..999 (so never the 0 that means "not registered")
    that compares equal to none of the reported ids, or it raises
    [IndexError], and that only when every integer of 1..999 equals a
    reported id.  It makes the one [peek] call and no write. *)
Theorem generate_id_sound {S : Type} (h : collaborator S) (s s' : S)
    (peeked : GetResult) (draw : nat)
    (Hpeek : respond h (Peek Py.maxsize) s = (Returned peeked, s')) :
  (exists z,
     run h (DB.generate_id draw) s = (Returned z, s', [Peek Py.maxsize])
     /\ 1 <= z <= 999 /\ PyInt z ∉ get_ids peeked)
  \/ (run h (DB.generate_id draw) s = (Raised IndexError, s', [Peek Py.maxsize])
      /\ forall z, 1 <= z <= 999 -> PyInt z ∈ get_ids peeked).
Proof.
  unfold DB.generate_id, mbind, prog_bind, perform. cbn [bind].
  erewrite run_call by exact Hpeek.
  destruct (DB.available_ids (get_ids peeked)) as [|z0 rest] eqn:Hav.
  - right. split; [reflexivity|]. intros z Hz.
    destruct (decide (PyInt z ∈ get_ids peeked)) as [Hin|Hout]; [exact Hin|].
    assert (Hz' : z ∈ DB.available_ids (get_ids peeked))
      by now apply elem_of_available_ids.
    rewrite Hav in Hz'. now apply elem_of_nil in Hz'.
  - left. destruct (choice_elem draw (z0 :: rest)) as (z & Hz & Hin);
      [discriminate|].
    exists z. rewrite Hz. split; [reflexivity|].
    rewrite <- Hav in Hin. now apply elem_of_available_ids in Hin.
Qed.

Lemma generate_id_sound_witness :
  (exists z,
     run (int_keyed [7; 8]) (DB.generate_id 6) tt = (Returned z, tt, [Peek Py.maxsize])
     /\ 1 <= z <= 999 /\ PyInt z ∉ [PyInt 7; PyInt 8])
  \/ (run (int_keyed [7; 8]) (DB.generate_id 6) tt
      = (Raised IndexError, tt, [Peek Py.maxsize])
      /\ forall z, 1 <= z <= 999 -> PyInt z ∈ [PyInt 7; PyInt 8]).
Proof.
  apply (generate_id_sound (int_keyed [7; 8]) tt tt
           (mkGetResult [PyInt 7; PyInt 8] [] [] []) 6).
  reflexivity.
Defined.

(** Every integer of 1..999 that equals none of the reported ids can be
    the result of [generate_id]: some draw of [random.choice] selects
    it. *)
Theorem generate_id_reaches_free {S : Type} (h : collaborator S) (s s' : S)
    (peeked : GetResult) (z : Z)
    (Hpeek : respond h (Peek Py.maxsize) s = (Returned peeked, s'))
    (Hz : 1 <= z <= 999)
    (Hfree : PyInt z ∉ get_ids peeked) :
  exists draw,
    run h (DB.generate_id draw) s = (Returned z, s', [Peek Py.maxsize]).
Proof.
  destruct (choice_reach z (DB.available_ids (get_ids peeked))) as [draw Hdraw].
  { now apply elem_of_available_ids. }
  exists draw.
  unfold DB.generate_id, mbind, prog_bind, perform. cbn [bind].
  erewrite run_call by exact Hpeek.
  now rewrite Hdraw.
Qed.

Lemma generate_id_reaches_free_witness :
  exists draw,
    run (int_keyed [7; 8]) (DB.generate_id draw) tt
    = (Returned 9, tt, [Peek Py.maxsize]).
Proof.
  apply (generate_id_reaches_free (int_keyed [7; 8]) tt tt
           (mkGetResult [PyInt 7; PyInt 8] [] [] []) 9).
  - reflexivity.
  - lia.
  - cbn [get_ids]. intros Hin.
    apply elem_of_cons in Hin as [Heq|Hin]; [discriminate Heq|].
    apply list_elem_of_singleton in Hin. discriminate Hin.
Defined.

(** ** Reading the store *)

(** What [get] does on a chromadb collection, by the entries found under
    the key. *)
Lemma run_get_chroma (col : Chroma.collection) (user_id : pyval) :
  run Chroma.chroma (DB.get user_id) col
  = (match stored_under (Py.str user_id) col with
     | [] => Returned None
     | ke :: _ =>
         match Chroma.metadata (snd ke) !! "name" with
         | Some name => Returned (Some (record_of (snd ke) name))
         | None => Raised KeyError
         end
     end,
     col,
     [Get [Py.str user_id] ["embeddings"; "metadatas"; "documents"]]).
Proof.
  unfold DB.get, mbind, prog_bind, perform. cbn [bind].
  erewrite run_call by reflexivity.
  fold (stored_under (Py.str user_id) col).
  destruct (stored_under (Py.str user_id) col) as [|[k e] rest]; [reflexivity|].
  cbn [Chroma.as_get_result get_ids get_metadatas get_embeddings get_documents
       fmap list_fmap length snd fst].
  rewrite bool_decide_eq_false_2 by discriminate.
  rewrite index_cons_0, bind_ret. unfold Py.getitem.
  destruct (Chroma.metadata e !! "name") as [name|]; [|reflexivity].
  rewrite bind_ret, index_cons_0, bind_ret, index_cons_0, bind_ret.
  reflexivity.
Qed.

Lemma stored_under_unknown (k : string) (col : Chroma.collection) :
  k ∉ Chroma.keys col -> stored_under k col = [].
Proof.
  unfold stored_under, Chroma.keys. induction col as [|[k' e'] col IH]; intros Hk.
  - reflexivity.
  - cbn [fmap list_fmap fst] in Hk. apply not_elem_of_cons in Hk as [Hne Hk].
    rewrite filter_cons_False.
    + now apply IH.
    + cbn [fst]. intros Hin. apply list_elem_of_singleton in Hin. congruence.
Qed.

Lemma stored_under_put_other (k k' : string) (e : Chroma.entry)
    (col : Chroma.collection) :
  k <> k' -> stored_under k' (Chroma.put k e col) = stored_under k' col.
Proof.
  intros Hne. unfold stored_under.
  assert (Hout : forall e0 : Chroma.entry, ~ (fst (k, e0) ∈ [k'])).
  { intros e0 Hin. cbn [fst] in Hin. apply list_elem_of_singleton in Hin.
    congruence. }
  induction col as [|[k0 e0] col IH]; cbn [Chroma.put].
  - rewrite filter_cons_False by apply Hout. reflexivity.
  - destruct (decide (k = k0)) as [->|Hk0].
    + rewrite !filter_cons_False by apply Hout. reflexivity.
    + destruct (decide (k0 = k')) as [->|Hk'].
      * rewrite !filter_cons_True by (cbn [fst]; left). now rewrite IH.
      * rewrite !filter_cons_False; [exact IH| |];
          cbn [fst]; intros Hin; apply list_elem_of_singleton in Hin; congruence.
Qed.

Lemma put_present (k : string) (e : Chroma.entry) (col : Chroma.collection) :
  k ∈ Chroma.keys col ->
  length (Chroma.put k e col) = length col
  /\ Chroma.keys (Chroma.put k e col) = Chroma.keys col.
Proof.
  unfold Chroma.keys. induction col as [|[k0 e0] col IH]; intros Hk.
  - now apply elem_of_nil in Hk.
  - cbn [Chroma.put]. destruct (decide (k = k0)) as [->|Hne]; [split; reflexivity|].
    cbn [fmap list_fmap fst] in Hk. apply elem_of_cons in Hk as [Heq|Hk]; [congruence|].
    destruct (IH Hk) as [Hlen Hkeys]. cbn [length fmap list_fmap fst].
    split; congruence.
Qed.

Lemma put_absent (k : string) (e : Chroma.entry) (col : Chroma.collection) :
  k ∉ Chroma.keys col -> Chroma.put k e col = col ++ [(k, e)].
Proof.
  unfold Chroma.keys. induction col as [|[k0 e0] col IH]; intros Hk; [reflexivity|].
  cbn [fmap list_fmap fst] in Hk. apply not_elem_of_cons in Hk as [Hne Hk].
  cbn [Chroma.put]. destruct (decide (k = k0)); [congruence|].
  now rewrite IH.
Qed.

Lemma metadata_entry_of (user : User.t) :
  Chroma.metadata (entry_of user) !! "name" = Some (User.name user).
Proof. apply lookup_singleton_eq. Qed.

Lemma record_of_entry_of (name : string) (choices : list Z) (comment : string) :
  record_of (entry_of (User.init name choices comment))
    (User.name (User.init name choices comment))
  = User.init name choices comment.
Proof. apply init_comment_idem. Qed.

Lemma get_unknown_id_absent_aux (col : Chroma.collection) (user_id : pyval) :
  Py.str user_id ∉ Chroma.keys col ->
  run Chroma.chroma (DB.get user_id) col
  = (Returned None, col,
     [Get [Py.str user_id] ["embeddings"; "metadatas"; "documents"]]).
Proof.
  intros Hnew. rewrite run_get_chroma, stored_under_unknown by exact Hnew.
  reflexivity.
Qed.

(** [get] on an identifier under which nothing was stored returns [None]
    after a single [collection.get]; it neither raises nor touches the
    collection. *)
Theorem get_unknown_id_absent (col : Chroma.collection) (user_id : pyval)
    (Hnew : Py.str user_id ∉ Chroma.keys col) :
  run Chroma.chroma (DB.get user_id) col
  = (Returned None, col,
     [Get [Py.str user_id] ["embeddings"; "metadatas"; "documents"]]).
Proof.
  rewrite run_get_chroma, stored_under_unknown by exact Hnew. reflexivity.
Qed.

Lemma get_unknown_id_absent_witness :
  run Chroma.chroma (DB.get (PyStr "3")) collection_AB
  = (Returned None, collection_AB,
     [Get ["3"] ["embeddings"; "metadatas"; "documents"]]).
Proof.
  apply (get_unknown_id_absent collection_AB (PyStr "3")).
  vm_compute. intros Hin.
  apply elem_of_cons in Hin as [Heq|Hin]; [discriminate Heq|].
  apply list_elem_of_singleton in Hin. discriminate Hin.
Defined.

(** The last write wins: after two [upsert]s under one identifier [get]
    returns the second record, and the second [upsert] replaces the entry
    in place: the collection has as many entries, under the same keys,
    as after the first. *)
Theorem upsert_twice_last_wins (col : Chroma.collection) (user_id : pyval)
    (n1 n2 : string) (c1 c2 : list Z) (d1 d2 : string) :
  let u1 := User.init n1 c1 d1 in
  let u2 := User.init n2 c2 d2 in
  let col1 := Chroma.put (Py.str user_id) (entry_of u1) col in
  let col2 := Chroma.put (Py.str user_id) (entry_of u2) col1 in
  run Chroma.chroma
    (_ ← DB.upsert user_id u1; _ ← DB.upsert user_id u2; DB.get user_id) col
  = (Returned (Some u2), col2,
     [Upsert [Py.str user_id] c1 {[ "name" := n1 ]} (User.comment u1);
      Upsert [Py.str user_id] c2 {[ "name" := n2 ]} (User.comment u2);
      Get [Py.str user_id] ["embeddings"; "metadatas"; "documents"]])
  /\ length col2 = length col1
  /\ Chroma.keys col2 = Chroma.keys col1.
Proof.
  intros u1 u2 col1 col2. split.
  - unfold mbind, prog_bind. rewrite !run_upsert_bind.
    fold (entry_of u1) (entry_of u2). fold col1. fold col2.
    rewrite run_get_chroma.
    destruct (filter_put_head (Py.str user_id) (entry_of u2) col1) as [rest Hrest].
    fold col2 in Hrest. unfold stored_under. rewrite Hrest.
    cbn [snd]. rewrite metadata_entry_of. subst u2.
    now rewrite record_of_entry_of.
  - apply put_present, elem_of_keys_put. now left.
Qed.

(** Writing under one identifier leaves what [get] answers for every
    identifier with a different text unchanged. *)
Theorem upsert_leaves_other_ids (col : Chroma.collection)
    (written read : pyval) (user : User.t)
    (Hother : Py.str written <> Py.str read) :
  (run Chroma.chroma (_ ← DB.upsert written user; DB.get read) col).1.1
  = (run Chroma.chroma (DB.get read) col).1.1.
Proof.
  unfold mbind, prog_bind. rewrite run_upsert_bind, !run_get_chroma.
  cbn [fst]. now rewrite stored_under_put_other.
Qed.

Lemma upsert_leaves_other_ids_witness :
  (run Chroma.chroma (_ ← DB.upsert (PyInt 3) record_A; DB.get (PyInt 2))
     collection_AB).1.1
  = (run Chroma.chroma (DB.get (PyInt 2)) collection_AB).1.1.
Proof.
  apply (upsert_leaves_other_ids collection_AB (PyInt 3) (PyInt 2) record_A).
  vm_compute. discriminate.
Defined.

(** An identifier and its decimal text address the same entry: what was
    written under the integer [z] is read back by [get] on the string
    [str(z)], the form in which the search page passes the identifier. *)
Theorem get_by_text_of_id (col : Chroma.collection) (z : Z)
    (name : string) (choices : list Z) (comment : string) :
  let user := User.init name choices comment in
  (run Chroma.chroma
     (_ ← DB.upsert (PyInt z) user; DB.get (PyStr (Py.str (PyInt z)))) col).1.1
  = Returned (Some user).
Proof.
  intros user. unfold mbind, prog_bind. rewrite run_upsert_bind, run_get_chroma.
  cbn [fst]. change (Py.str (PyStr (Py.str (PyInt z)))) with (Py.str (PyInt z)).
  fold (entry_of user).
  destruct (filter_put_head (Py.str (PyInt z)) (entry_of user) col) as [rest Hrest].
  unfold stored_under. rewrite Hrest.
  cbn [snd]. rewrite metadata_entry_of. subst user.
  now rewrite record_of_entry_of.
Qed.

(** ** Collections written through [upsert] never make a read fail *)

Lemma named_put (k : string) (e : Chroma.entry) (col : Chroma.collection) :
  is_Some (Chroma.metadata e !! "name") -> named col -> named (Chroma.put k e col).
Proof.
  intros He. unfold named. induction 1 as [|[k0 e0] col H0 Hcol IH]; cbn [Chroma.put].
  - repeat constructor. exact He.
  - destruct (decide (k = k0)); constructor; assumption.
Qed.

Lemma stored_under_subseteq (k : string) (col : Chroma.collection)
    (ke : string * Chroma.entry) :
  ke ∈ stored_under k col -> ke ∈ col.
Proof. unfold stored_under. rewrite list_elem_of_filter. tauto. Qed.

Lemma run_search_small_chroma (col : Chroma.collection) (user : User.t) :
  (length col < 2)%nat ->
  run Chroma.chroma (DB.search user) col = (Returned (None, -1), col, [Count]).
Proof.
  intros Hlen. unfold DB.search, mbind, prog_bind, perform. cbn [bind].
  erewrite run_call by reflexivity.
  now rewrite bool_decide_eq_true_2 by lia.
Qed.


(** [upsert] keeps the collection one in which every entry has a name. *)
Theorem upsert_keeps_named (col : Chroma.collection) (user_id : pyval)
    (user : User.t) (Hnamed : named col) :
  named (run Chroma.chroma (DB.upsert user_id user) col).1.2.
Proof.
  change (named (Chroma.put (Py.str user_id) (entry_of user) col)).
  apply named_put; [|exact Hnamed].
  rewrite metadata_entry_of. eauto.
Qed.

Lemma upsert_keeps_named_witness :
  named (run Chroma.chroma (DB.upsert (PyInt 5) record_B) []).1.2.
Proof.
  apply (upsert_keeps_named [] (PyInt 5) record_B). constructor.
Defined.

(** On a collection in which every entry has a name, [get] never raises:
    for every identifier it returns a record or [None]. *)
Theorem get_never_raises (col : Chroma.collection) (user_id : pyval)
    (Hnamed : named col) :
  exists r, (run Chroma.chroma (DB.get user_id) col).1.1 = Returned r.
Proof.
  rewrite run_get_chroma. cbn [fst].
  destruct (stored_under (Py.str user_id) col) as [|ke rest] eqn:Hfound; [eauto|].
  assert (Hin : ke ∈ col).
  { apply (stored_under_subseteq (Py.str user_id)). rewrite Hfound. left. }
  unfold named in Hnamed. rewrite Forall_forall in Hnamed.
  destruct (Hnamed ke Hin) as [name Hname]. rewrite Hname. eauto.
Qed.

Lemma get_never_raises_witness :
  exists r, (run Chroma.chroma (DB.get (PyInt 2)) collection_AB).1.1 = Returned r.
Proof.
  apply (get_never_raises collection_AB (PyInt 2)).
  repeat constructor; vm_compute; eauto.
Defined.



(** ** What [search] finds *)





(** ** The range of the distance *)

Lemma sum_sq_diffs_bounded (m : Z) (a b : list Z) :
  Forall (fun c => 0 <= c <= m) a -> Forall (fun c => 0 <= c <= m) b ->
  Py.sum (sq_diffs a b) <= m ^ 2 * Z.of_nat (length a `min` length b).
Proof.
  intros Ha. revert b. induction Ha as [|x a Hx Ha IH]; intros b Hb.
  - cbn. lia.
  - destruct Hb as [|y b Hy Hb]; [cbn; lia|].
    change (sq_diffs (x :: a) (y :: b)) with ((x - y) ^ 2 :: sq_diffs a b).
    rewrite sum_cons. specialize (IH b Hb).
    change (length (x :: a) `min` length (y :: b))%nat
      with (S (length a `min` length b)).
    nia.
Qed.

(** When every answer of both records lies in [0..m], the distance lies
    between 0 and [m^2] times the number of compared answers; with five
    choices per question ([m = 4]) that is the [4 ** 2 * len(questions)]
    which [print_result] takes as the maximum. *)
Theorem distance_within_maximum (m : Z) (self user : User.t)
    (Hself : Forall (fun c => 0 <= c <= m) (User.choices self))
    (Huser : Forall (fun c => 0 <= c <= m) (User.choices user)) :
  exists d,
    User.distance self user = Ret d
    /\ 0 <= d
       <= m ^ 2 * Z.of_nat (length (User.choices self) `min` length (User.choices user)).
Proof.
  eexists. split; [apply distance_unfold|]. split.
  - apply sum_sq_diffs_nonneg.
  - now apply sum_sq_diffs_bounded.
Qed.

Lemma distance_within_maximum_witness :
  exists d,
    User.distance record_A record_B = Ret d /\ 0 <= d <= 4 ^ 2 * 3.
Proof.
  apply (distance_within_maximum 4 record_A record_B);
    repeat constructor; cbn; lia.
Defined.

(** ** The questions *)

Lemma tuple_index_member (x : string) (xs : list string) :
  x ∈ xs ->
  exists i,
    Question.tuple_index x xs = Question.Value i
    /\ xs !! i = Some x
    /\ forall j, (j < i)%nat -> xs !! j <> Some x.
Proof.
  induction xs as [|y xs IH]; intros Hin; [now apply elem_of_nil in Hin|].
  cbn [Question.tuple_index]. destruct (decide (y = x)) as [->|Hne].
  - exists 0%nat. split; [reflexivity|]. split; [reflexivity|]. intros j Hj. lia.
  - apply elem_of_cons in Hin as [Heq|Hin]; [congruence|].
    destruct (IH Hin) as (i & Hi & Hat & Hmin). rewrite Hi.
    exists (S i). split; [reflexivity|]. split; [exact Hat|].
    intros [|j] Hj; cbn; [congruence|]. apply Hmin. lia.
Qed.

(** [choice_index] of a string that is one of the question's choices
    returns a position inside the tuple, the choice stands at that
    position, and at no earlier one: among equal choices the first
    counts. *)
Theorem choice_index_found (self : Question.t) (c : string)
    (Hin : c ∈ Question.choices self) :
  exists i,
    Question.choice_index self (Some c) = Question.Value (Some i)
    /\ (i < length (Question.choices self))%nat
    /\ Question.choices self !! i = Some c
    /\ forall j, (j < i)%nat -> Question.choices self !! j <> Some c.
Proof.
  destruct (tuple_index_member c (Question.choices self) Hin) as (i & Hi & Hat & Hmin).
  exists i. unfold Question.choice_index.
  rewrite bool_decide_eq_true_2 by exact Hin. rewrite Hi.
  split; [reflexivity|]. split; [|split; assumption].
  now apply lookup_lt_Some in Hat.
Qed.

Lemma choice_index_found_witness :
  exists i,
    Question.choice_index (Question.mk "q" ["a"; "b"; "c"; "b"]) (Some "b")
    = Question.Value (Some i)
    /\ (i < 4)%nat
    /\ ["a"; "b"; "c"; "b"] !! i = Some "b"
    /\ forall j, (j < i)%nat -> ["a"; "b"; "c"; "b"] !! j <> Some "b".
Proof.
  apply (choice_index_found (Question.mk "q" ["a"; "b"; "c"; "b"]) "b").
  cbn [Question.choices]. right. left.
Defined.

(** [choice_index] never lets the [ValueError] of [tuple.index] escape,
    and it returns [None] exactly when the argument is no member of the
    choices, which includes the [None] of an untouched radio. *)
Theorem choice_index_none_iff_absent (self : Question.t) (choice : option string) :
  Question.choice_index self choice <> Question.ValueError
  /\ (Question.choice_index self choice = Question.Value None
      <-> forall c, choice = Some c -> c ∉ Question.choices self).
Proof.
  unfold Question.choice_index. destruct choice as [c|].
  - case_bool_decide as Hin.
    + destruct (tuple_index_member c (Question.choices self) Hin) as (i & Hi & _).
      rewrite Hi. split; [discriminate|]. split; [discriminate|].
      intros Hout. now destruct (Hout c eq_refl).
    + split; [discriminate|]. split; [|reflexivity].
      intros _ c' [= <-]. exact Hin.
  - split; [discriminate|]. split; [|reflexivity]. intros _ c [=].
Qed.

(** When the choices of a question are pairwise different,
    [choice_index] inverts indexing: the choice at position [i] is mapped
    back to [i], so a selected option is recorded under its own
    position. *)
Theorem choice_index_of_position (self : Question.t) (i : nat) (c : string)
    (Hdistinct : NoDup (Question.choices self))
    (Hat : Question.choices self !! i = Some c) :
  Question.choice_index self (Some c) = Question.Value (Some i).
Proof.
  assert (Hin : c ∈ Question.choices self) by (eapply list_elem_of_lookup_2, Hat).
  destruct (tuple_index_member c (Question.choices self) Hin) as (j & Hj & Hatj & _).
  unfold Question.choice_index.
  rewrite bool_decide_eq_true_2 by exact Hin. rewrite Hj.
  do 2 f_equal. eapply NoDup_lookup; eassumption.
Qed.

Lemma choice_index_of_position_witness :
  Question.choice_index (Question.mk "q" ["a"; "b"; "c"]) (Some "c")
  = Question.Value (Some 2%nat).
Proof.
  apply (choice_index_of_position (Question.mk "q" ["a"; "b"; "c"]) 2 "c").
  - cbn [Question.choices]. apply (bool_decide_unpack _). vm_compute. exact I.
  - reflexivity.
Defined.

(** ** The pages *)

Lemma choice_index_total (q : Question.t) (selected : option string) :
  Question.choice_index q selected = Question.Value (recorded q selected).
Proof.
  unfold recorded, Question.choice_index. destruct selected as [c|]; [|reflexivity].
  case_bool_decide as Hin; [|reflexivity].
  destruct (tuple_index_member c (Question.choices q) Hin) as (i & Hi & _).
  now rewrite Hi.
Qed.

Lemma asked_from_length (i : nat) (qs : list Question.t) (radio : nat -> option string) :
  length (asked_from i qs radio) = length qs.
Proof.
  revert i. induction qs as [|q qs IH]; intros i; [reflexivity|].
  cbn [asked_from length]. now rewrite IH.
Qed.

Section page_facts.

Context {St : Type} (h : collaborator St).

(** The radio loop overwrites the slots from [i] on with what it
    records, when there is a slot for every question. *)
Lemma ask_from_ok (qs : list Question.t) (radio : nat -> option string)
    (i : nat) (done old : list (option nat)) (w : App.world) :
  App.choices (App.ss w) = done ++ old ->
  length done = i ->
  length old = length qs ->
  App.ask_from (St := St) i qs radio w
  = (App.Ok tt,
     App.mkWorld (App.set_choices (done ++ asked_from i qs radio) (App.ss w))
       (App.db w) (App.calls w) (App.screen w)).
Proof.
  revert i done old w.
  induction qs as [|q qs IH]; intros i done old w Hcs Hdone Hold.
  - destruct old; [|discriminate Hold]. cbn [App.ask_from asked_from App.pure].
    destruct w as [[qs0 nm cs cm uid u] d c scr]. cbn in Hcs |- *. now rewrite Hcs.
  - destruct old as [|c0 old]; [discriminate Hold|].
    cbn [App.ask_from asked_from]. unfold App.andthen at 1, App.read at 1.
    rewrite Hcs. rewrite lookup_app_r by lia.
    replace (i - length done)%nat with 0%nat by lia. cbn [lookup list_lookup].
    rewrite choice_index_total. unfold App.andthen at 1, App.assign at 1.
    rewrite (IH (S i) (done ++ [recorded q (radio i)]) old).
    + cbn [App.ss App.db App.calls App.screen App.set_choices
           App.questions App.name App.comment App.user_id App.user].
      now rewrite <- app_assoc.
    + cbn [App.ss App.set_choices App.choices].
      rewrite insert_app_r_alt by lia.
      replace (i - length done)%nat with 0%nat by lia.
      cbn [insert list_insert]. now rewrite <- app_assoc.
    + rewrite length_app. cbn [length]. lia.
    + now injection Hold.
Qed.

Lemma register_page_widgets (name_in : string) (radio : nat -> option string)
    (comment_in : string) (pressed : bool) (draw : nat) (w : App.world) :
  length (App.choices (App.ss w)) = length (App.questions (App.ss w)) ->
  App.register_page h name_in radio comment_in pressed draw w
  = (if pressed then App.register_submit h draw (after_widgets name_in radio comment_in w)
     else (App.Ok tt, after_widgets name_in radio comment_in w)).
Proof.
  intros Hlen. unfold App.register_page.
  unfold App.andthen at 1, App.show at 1.
  unfold App.andthen at 1, App.assign at 1.
  unfold App.andthen at 1, App.read at 1.
  unfold App.andthen at 1.
  cbn [App.ss App.db App.calls App.screen App.set_name App.questions].
  erewrite (ask_from_ok _ radio 0 [] (App.choices (App.ss w)));
    [|reflexivity|reflexivity|exact Hlen].
  unfold App.andthen at 1, App.assign at 1.
  destruct w as [[qs nm cs cm uid u] d c scr].
  destruct pressed; reflexivity.
Qed.

End page_facts.

Lemma count_none_pos (cs : list (option nat)) :
  (0 < App.count_none cs)%nat <-> None ∈ cs.
Proof.
  unfold App.count_none. induction cs as [|[v|] cs IH].
  - cbn. split; [lia|]. intros Hin. now apply elem_of_nil in Hin.
  - rewrite filter_cons_False by discriminate. rewrite IH.
    rewrite elem_of_cons. split; [tauto|]. intros [Heq|Hin]; [discriminate|exact Hin].
  - rewrite filter_cons_True by reflexivity. cbn [length].
    split; [intros _; left | lia].
Qed.

Lemma answered_full (cs : list (option nat)) :
  None ∉ cs ->
  exists answers, App.answered cs = Some answers /\ length answers = length cs.
Proof.
  intros Hfull. unfold App.answered.
  destruct (mapM (fun c : option nat => Z.of_nat <$> c) cs) as [answers|] eqn:Hm.
  - exists answers. split; [reflexivity|]. symmetry. eapply length_mapM, Hm.
  - exfalso. apply eq_None_not_Some in Hm. apply Hm, mapM_is_Some.
    apply Forall_forall. intros [v|] Hv; [cbn; eauto|contradiction].
Qed.

Lemma elem_of_asked_from (v : option nat) (i : nat) (qs : list Question.t)
    (radio : nat -> option string) :
  v ∈ asked_from i qs radio
  <-> exists j q, qs !! j = Some q /\ v = recorded q (radio (i + j)%nat).
Proof.
  revert i. induction qs as [|q qs IH]; intros i; cbn [asked_from].
  - split; [intros Hin; now apply elem_of_nil in Hin|].
    intros (j & q & Hq & _). discriminate Hq.
  - rewrite elem_of_cons, IH. split.
    + intros [->|(j & q' & Hq' & ->)].
      * exists 0%nat, q. split; [reflexivity|]. now rewrite Nat.add_0_r.
      * exists (S j), q'. split; [exact Hq'|]. now rewrite Nat.add_succ_r.
    + intros ([|j] & q' & Hq' & ->).
      * left. injection Hq' as ->. now rewrite Nat.add_0_r.
      * right. exists j, q'. split; [exact Hq'|]. now rewrite Nat.add_succ_r.
Qed.

Lemma recorded_none (q : Question.t) (selected : option string) :
  recorded q selected = None
  <-> forall c, selected = Some c -> c ∉ Question.choices q.
Proof.
  unfold recorded, Question.choice_index. destruct selected as [c|].
  - case_bool_decide as Hin.
    + destruct (tuple_index_member c (Question.choices q) Hin) as (i & Hi & _).
      rewrite Hi. split; [discriminate|]. intros Hout. now destruct (Hout c eq_refl).
    + split; [|reflexivity]. intros _ c' [= <-]. exact Hin.
  - split; [|reflexivity]. intros _ c [=].
Qed.

Lemma all_selected_full (qs : list Question.t) (radio : nat -> option string) :
  all_selected qs radio -> None ∉ asked_from 0 qs radio.
Proof.
  intros Hall Hin. apply elem_of_asked_from in Hin as (j & q & Hq & Hnone).
  symmetry in Hnone. cbn in Hnone. rewrite recorded_none in Hnone.
  destruct (Hall j q Hq) as (c & Hc & Hmem). exact (Hnone c Hc Hmem).
Qed.

Section register_facts.

Context {St : Type} (h : collaborator St).

Lemma register_submit_no_name (draw : nat) (w : App.world) :
  App.name (App.ss w) = "" ->
  App.register_submit h draw w
  = (App.Ok tt,
     App.mkWorld (App.ss w) (App.db w) (App.calls w)
       (App.screen w ++ [App.Alert App.msg_need_name])).
Proof.
  intros Hname. unfold App.register_submit, App.andthen at 1, App.read at 1.
  now rewrite Hname.
Qed.

Lemma register_submit_unanswered (draw : nat) (w : App.world) :
  App.name (App.ss w) <> "" ->
  None ∈ App.choices (App.ss w) ->
  App.register_submit h draw w
  = (App.Ok tt,
     App.mkWorld (App.ss w) (App.db w) (App.calls w)
       (App.screen w ++ [App.Alert App.msg_unanswered])).
Proof.
  intros Hname Hnone. unfold App.register_submit, App.andthen at 1, App.read at 1.
  destruct (App.name (App.ss w)) as [|a nm]; [congruence|]. cbn [Py.truthy negb].
  unfold App.andthen at 1, App.read at 1.
  now rewrite bool_decide_eq_true_2 by now apply count_none_pos.
Qed.

End register_facts.

(** Pressing the button with an empty name, or while some question has
    no choice of its own selected, only raises an alert: no call reaches
    the collection, and the session keeps its identifier and its
    record. *)
Theorem register_rejects_incomplete {St : Type} (h : collaborator St)
    (name_in : string) (radio : nat -> option string) (comment_in : string)
    (draw : nat) (w : App.world)
    (Hslots : length (App.choices (App.ss w)) = length (App.questions (App.ss w)))
    (Hincomplete :
       name_in = ""
       \/ exists i q, App.questions (App.ss w) !! i = Some q
                      /\ forall c, radio i = Some c -> c ∉ Question.choices q) :
  let out := App.register_page h name_in radio comment_in true draw w in
  out.1 = App.Ok tt
  /\ App.db out.2 = App.db w
  /\ App.calls out.2 = App.calls w
  /\ App.user_id (App.ss out.2) = App.user_id (App.ss w)
  /\ App.user (App.ss out.2) = App.user (App.ss w)
  /\ exists message,
       App.screen out.2
       = App.screen w ++ [App.Subheader "ユーザー登録"; App.Alert message]
       /\ (message = App.msg_need_name \/ message = App.msg_unanswered).
Proof.
  intros out. subst out. rewrite register_page_widgets by exact Hslots.
  destruct (decide (name_in = "")) as [Hname|Hname].
  - rewrite register_submit_no_name by exact Hname.
    cbn. repeat split. exists App.msg_need_name.
    rewrite <- app_assoc. split; [reflexivity | now left].
  - destruct Hincomplete as [Hempty|(i & q & Hq & Hout)]; [congruence|].
    rewrite register_submit_unanswered; [|exact Hname|].
    + cbn. repeat split. exists App.msg_unanswered.
      rewrite <- app_assoc. split; [reflexivity | now right].
    + cbn. apply elem_of_asked_from. exists i, q. split; [exact Hq|].
      symmetry. now apply recorded_none.
Qed.

Lemma register_rejects_incomplete_witness :
  let out := App.register_page Chroma.chroma "" always_c "hi" true 41
               (fresh_world three_questions) in
  out.1 = App.Ok tt
  /\ App.db out.2 = []
  /\ App.calls out.2 = []
  /\ App.user_id (App.ss out.2) = 0
  /\ App.user (App.ss out.2) = None
  /\ exists message,
       App.screen out.2 = [] ++ [App.Subheader "ユーザー登録"; App.Alert message]
       /\ (message = App.msg_need_name \/ message = App.msg_unanswered).
Proof.
  apply (register_rejects_incomplete Chroma.chroma "" always_c "hi" 41
           (fresh_world three_questions)).
  - reflexivity.
  - now left.
Defined.

Lemma run_upsert_chroma (col : Chroma.collection) (user_id : pyval) (user : User.t) :
  run Chroma.chroma (DB.upsert user_id user) col
  = (Returned tt, Chroma.put (Py.str user_id) (entry_of user) col,
     [Upsert [Py.str user_id] (User.choices user) {[ "name" := User.name user ]}
        (User.comment user)]).
Proof. reflexivity. Qed.

Lemma register_submit_first (draw : nat) (qs : list Question.t) (nm : string)
    (cs : list (option nat)) (cm : string) (u : option (string * string))
    (col : Chroma.collection) (log : list call) (scr : list App.shown)
    (answers : list Z) :
  nm <> "" -> None ∉ cs -> App.answered cs = Some answers ->
  let z := 1 + Z.of_nat (draw mod 999) in
  let user := User.init nm answers cm in
  App.register_submit Chroma.chroma draw
    (App.mkWorld (App.mkSession qs nm cs cm 0 u) col log scr)
  = (App.Ok tt,
     App.mkWorld (App.mkSession qs nm cs cm z (Some (nm, User.comment user)))
       (Chroma.put (pretty z) (entry_of user) col)
       ((log ++ [Peek Py.maxsize])
        ++ [Upsert [pretty z] answers {[ "name" := nm ]} (User.comment user)])
       (((scr ++ [App.SidebarWrite (App.msg_your_id z)]))
        ++ [App.Alert (App.msg_registered z)])).
Proof.
  intros Hnm Hfull Hans z user.
  unfold App.register_submit, App.andthen at 1, App.read at 1. cbn [App.ss App.name].
  destruct nm as [|a nm]; [congruence|]. cbn [Py.truthy negb].
  unfold App.andthen at 1, App.read at 1. cbn [App.ss App.choices].
  rewrite bool_decide_eq_false_2 by (rewrite count_none_pos; exact Hfull).
  unfold App.andthen at 1, App.read at 1. cbn [App.ss App.user_id].
  rewrite bool_decide_eq_true_2 by reflexivity.
  unfold App.andthen at 1. unfold App.andthen at 1, App.on_db at 1. cbn [App.db].
  rewrite generate_id_ignores_collection. fold z.
  cbn [App.andthen App.assign App.show App.pure App.read App.ss App.db App.calls
       App.screen App.set_user_id App.questions App.name App.choices App.comment
       App.user App.user_id].
  rewrite Hans.
  unfold App.andthen at 1, App.on_db at 1. cbn [App.db].
  rewrite run_upsert_chroma. reflexivity.
Qed.

Lemma register_submit_update (draw : nat) (qs : list Question.t) (nm : string)
    (cs : list (option nat)) (cm : string) (uid : Z) (u : option (string * string))
    (col : Chroma.collection) (log : list call) (scr : list App.shown)
    (answers : list Z) :
  nm <> "" -> None ∉ cs -> App.answered cs = Some answers -> uid <> 0 ->
  let user := User.init nm answers cm in
  App.register_submit Chroma.chroma draw
    (App.mkWorld (App.mkSession qs nm cs cm uid u) col log scr)
  = (App.Ok tt,
     App.mkWorld (App.mkSession qs nm cs cm uid (Some (nm, User.comment user)))
       (Chroma.put (pretty uid) (entry_of user) col)
       (log ++ [Upsert [pretty uid] answers {[ "name" := nm ]} (User.comment user)])
       (scr ++ [App.Alert App.msg_updated])).
Proof.
  intros Hnm Hfull Hans Huid user.
  unfold App.register_submit, App.andthen at 1, App.read at 1. cbn [App.ss App.name].
  destruct nm as [|a nm]; [congruence|]. cbn [Py.truthy negb].
  unfold App.andthen at 1, App.read at 1. cbn [App.ss App.choices].
  rewrite bool_decide_eq_false_2 by (rewrite count_none_pos; exact Hfull).
  unfold App.andthen at 1, App.read at 1. cbn [App.ss App.user_id].
  rewrite bool_decide_eq_false_2 by exact Huid.
  cbn [App.andthen App.assign App.show App.pure App.read App.ss App.db App.calls
       App.screen App.questions App.name App.choices App.comment
       App.user App.user_id].
  rewrite Hans.
  unfold App.andthen at 1, App.on_db at 1. cbn [App.db].
  rewrite run_upsert_chroma. reflexivity.
Qed.

Lemma asked_from_lookup (i j : nat) (qs : list Question.t)
    (radio : nat -> option string) (q : Question.t) :
  qs !! j = Some q ->
  asked_from i qs radio !! j = Some (recorded q (radio (i + j)%nat)).
Proof.
  revert i j. induction qs as [|q0 qs IH]; intros i [|j] Hq; try discriminate Hq.
  - injection Hq as ->. cbn. now rewrite Nat.add_0_r.
  - cbn [asked_from]. rewrite Nat.add_succ_r. exact (IH (S i) j Hq).
Qed.

Lemma recorded_member (q : Question.t) (c : string) :
  c ∈ Question.choices q ->
  exists k, recorded q (Some c) = Some k /\ Question.choices q !! k = Some c.
Proof.
  intros Hin. unfold recorded, Question.choice_index.
  rewrite bool_decide_eq_true_2 by exact Hin.
  destruct (tuple_index_member c (Question.choices q) Hin) as (k & Hk & Hat & _).
  rewrite Hk. eauto.
Qed.

Lemma answers_encode (qs : list Question.t) (radio : nat -> option string)
    (answers : list Z) (i : nat) (q : Question.t) (c : string) :
  App.answered (asked_from 0 qs radio) = Some answers ->
  qs !! i = Some q -> radio i = Some c -> c ∈ Question.choices q ->
  exists k, answers !! i = Some (Z.of_nat k) /\ Question.choices q !! k = Some c.
Proof.
  intros Hans Hq Hc Hin.
  destruct (recorded_member q c Hin) as (k & Hk & Hat).
  exists k. split; [|exact Hat].
  apply mapM_Some_1 in Hans.
  pose proof (asked_from_lookup 0 i qs radio q Hq) as Hslot.
  cbn [Nat.add] in Hslot. rewrite Hc, Hk in Hslot.
  destruct (Forall2_lookup_l _ _ _ _ _ Hans Hslot) as (y & Hy & Hconv).
  cbn in Hconv. now injection Hconv as <-.
Qed.

Lemma get_after_put (col : Chroma.collection) (user_id : pyval)
    (name : string) (choices : list Z) (comment : string) :
  (run Chroma.chroma (DB.get user_id)
     (Chroma.put (Py.str user_id) (entry_of (User.init name choices comment)) col)).1.1
  = Returned (Some (User.init name choices comment)).
Proof.
  rewrite run_get_chroma. cbn [fst].
  destruct (filter_put_head (Py.str user_id)
              (entry_of (User.init name choices comment)) col) as [rest Hrest].
  unfold stored_under. rewrite Hrest. cbn [snd].
  now rewrite metadata_entry_of, record_of_entry_of.
Qed.

(** A first registration (identifier 0 in the session) with a name and a
    choice selected for every question allocates an identifier in
    1..999, keeps it in the session together with the record, and writes
    the record under it: the calls are one [peek] and one [upsert], the
    stored vector has one entry per question, each the position of the
    selected choice, and [get] on the new identifier returns the
    record. *)
Theorem register_first_time (name_in : string) (radio : nat -> option string)
    (comment_in : string) (draw : nat) (w : App.world (St := Chroma.collection))
    (Hslots : length (App.choices (App.ss w)) = length (App.questions (App.ss w)))
    (Hname : name_in <> "")
    (Hselected : all_selected (App.questions (App.ss w)) radio)
    (Hnew : App.user_id (App.ss w) = 0) :
  exists z answers,
    1 <= z <= 999
    /\ length answers = length (App.questions (App.ss w))
    /\ (forall i q c,
          App.questions (App.ss w) !! i = Some q -> radio i = Some c ->
          exists k, answers !! i = Some (Z.of_nat k)
                    /\ Question.choices q !! k = Some c)
    /\ let user := User.init name_in answers comment_in in
       let out := App.register_page Chroma.chroma name_in radio comment_in true draw w in
       out.1 = App.Ok tt
       /\ App.user_id (App.ss out.2) = z
       /\ App.user (App.ss out.2) = Some (name_in, User.comment user)
       /\ App.calls out.2
          = App.calls w
            ++ [Peek Py.maxsize;
                Upsert [pretty z] answers {[ "name" := name_in ]} (User.comment user)]
       /\ App.screen out.2
          = App.screen w
            ++ [App.Subheader "ユーザー登録"; App.SidebarWrite (App.msg_your_id z);
                App.Alert (App.msg_registered z)]
       /\ (run Chroma.chroma (DB.get (PyInt z)) (App.db out.2)).1.1
          = Returned (Some user).
Proof.
  pose proof (all_selected_full _ _ Hselected) as Hfull.
  destruct (answered_full _ Hfull) as (answers & Hans & Hlen).
  rewrite asked_from_length in Hlen.
  exists (1 + Z.of_nat (draw mod 999)), answers.
  split. { pose proof (Nat.mod_upper_bound draw 999). lia. }
  split; [exact Hlen|]. split.
  { intros i q c Hq Hc. destruct (Hselected i q Hq) as (c' & Hc' & Hin).
    rewrite Hc in Hc'. injection Hc' as <-.
    now apply (answers_encode (App.questions (App.ss w)) radio answers i q c). }
  intros user out. subst out. rewrite register_page_widgets by exact Hslots.
  unfold after_widgets. rewrite Hnew.
  rewrite (register_submit_first draw _ name_in _ comment_in _ _ _ _ answers)
    by assumption.
  cbn [fst snd App.ss App.db App.calls App.screen App.user_id App.user].
  rewrite <- !app_assoc. repeat split.
  apply (get_after_put _ (PyInt (1 + Z.of_nat (draw mod 999)))).
Qed.

Lemma three_questions_all_selected : all_selected three_questions always_c.
Proof.
  intros i q Hq. exists "c". split; [reflexivity|].
  destruct i as [|[|[|i]]]; try discriminate Hq;
    injection Hq as <-; cbn [Question.choices]; do 2 right; left.
Qed.

Lemma register_first_time_witness :
  exists z answers,
    1 <= z <= 999
    /\ length answers = 3%nat
    /\ (forall i q c,
          three_questions !! i = Some q -> always_c i = Some c ->
          exists k, answers !! i = Some (Z.of_nat k)
                    /\ Question.choices q !! k = Some c)
    /\ let user := User.init "bob" answers "" in
       let out := App.register_page Chroma.chroma "bob" always_c "" true 41
                    (fresh_world three_questions) in
       out.1 = App.Ok tt
       /\ App.user_id (App.ss out.2) = z
       /\ App.user (App.ss out.2) = Some ("bob", User.comment user)
       /\ App.calls out.2
          = [] ++ [Peek Py.maxsize;
                   Upsert [pretty z] answers {[ "name" := "bob" ]} (User.comment user)]
       /\ App.screen out.2
          = [] ++ [App.Subheader "ユーザー登録"; App.SidebarWrite (App.msg_your_id z);
                   App.Alert (App.msg_registered z)]
       /\ (run Chroma.chroma (DB.get (PyInt z)) (App.db out.2)).1.1
          = Returned (Some user).
Proof.
  apply (register_first_time "bob" always_c "" 41 (fresh_world three_questions)).
  - reflexivity.
  - discriminate.
  - exact three_questions_all_selected.
  - reflexivity.
Defined.

(** A later submission (identifier already in the session) never asks
    for a new identifier: the one call is the [upsert] under the
    session's identifier, which stays, the record in the session is
    replaced, and [get] on the identifier returns the new record. *)
Theorem register_again_updates (name_in : string) (radio : nat -> option string)
    (comment_in : string) (draw : nat) (w : App.world (St := Chroma.collection))
    (Hslots : length (App.choices (App.ss w)) = length (App.questions (App.ss w)))
    (Hname : name_in <> "")
    (Hselected : all_selected (App.questions (App.ss w)) radio)
    (Hold : App.user_id (App.ss w) <> 0) :
  exists answers,
    length answers = length (App.questions (App.ss w))
    /\ let user := User.init name_in answers comment_in in
       let out := App.register_page Chroma.chroma name_in radio comment_in true draw w in
       out.1 = App.Ok tt
       /\ App.user_id (App.ss out.2) = App.user_id (App.ss w)
       /\ App.user (App.ss out.2) = Some (name_in, User.comment user)
       /\ App.calls out.2
          = App.calls w
            ++ [Upsert [pretty (App.user_id (App.ss w))] answers
                  {[ "name" := name_in ]} (User.comment user)]
       /\ App.screen out.2
          = App.screen w
            ++ [App.Subheader "ユーザー登録"; App.Alert App.msg_updated]
       /\ (run Chroma.chroma (DB.get (PyInt (App.user_id (App.ss w)))) (App.db out.2)).1.1
          = Returned (Some user).
Proof.
  pose proof (all_selected_full _ _ Hselected) as Hfull.
  destruct (answered_full _ Hfull) as (answers & Hans & Hlen).
  rewrite asked_from_length in Hlen.
  exists answers. split; [exact Hlen|].
  intros user out. subst out. rewrite register_page_widgets by exact Hslots.
  unfold after_widgets.
  rewrite (register_submit_update draw _ name_in _ comment_in _ _ _ _ _ answers)
    by assumption.
  cbn [fst snd App.ss App.db App.calls App.screen App.user_id App.user].
  rewrite <- !app_assoc. repeat split.
  apply (get_after_put _ (PyInt (App.user_id (App.ss w)))).
Qed.

Lemma register_again_updates_witness :
  exists answers,
    length answers = 3%nat
    /\ let user := User.init "ann" answers "hi" in
       let out := App.register_page Chroma.chroma "ann" always_c "hi" true 7
                    registered_world in
       out.1 = App.Ok tt
       /\ App.user_id (App.ss out.2) = App.user_id (App.ss registered_world)
       /\ App.user (App.ss out.2) = Some ("ann", User.comment user)
       /\ App.calls out.2
          = App.calls registered_world
            ++ [Upsert [pretty (App.user_id (App.ss registered_world))] answers
                  {[ "name" := "ann" ]} (User.comment user)]
       /\ App.screen out.2
          = App.screen registered_world
            ++ [App.Subheader "ユーザー登録"; App.Alert App.msg_updated]
       /\ (run Chroma.chroma
             (DB.get (PyInt (App.user_id (App.ss registered_world)))) (App.db out.2)).1.1
          = Returned (Some user).
Proof.
  apply (register_again_updates "ann" always_c "hi" 7 registered_world).
  - reflexivity.
  - discriminate.
  - exact three_questions_all_selected.
  - vm_compute. discriminate.
Defined.




Lemma pretty_N_go_nonempty (x : N) (s : string) :
  s <> "" -> pretty_N_go x s <> "".
Proof.
  revert s. induction (N.lt_wf_0 x) as [x _ IH]; intros s Hs.
  destruct (decide (x = 0)%N) as [->|Hx]; [now rewrite pretty_N_go_0|].
  rewrite pretty_N_go_step by lia. apply IH; [apply N.div_lt; lia | discriminate].
Qed.

Lemma str_of_int_truthy (z : Z) : Py.truthy (pretty z) = true.
Proof.
  assert (Hne : pretty z <> "").
  { destruct z as [|p|p]; unfold pretty, pretty_Z; try discriminate.
    unfold pretty, pretty_positive, pretty, pretty_N.
    destruct (decide (N.pos p = 0)%N); [discriminate|].
    rewrite pretty_N_go_step by lia. apply pretty_N_go_nonempty. discriminate. }
  destruct (pretty z); [congruence | reflexivity].
Qed.

Lemma truthy_nonempty (s : string) : s <> "" -> Py.truthy s = true.
Proof. destruct s; [congruence | reflexivity]. Qed.

Lemma answered_take (n : nat) (cs : list (option nat)) (answers : list Z) :
  App.answered cs = Some answers ->
  App.answered (take n cs) = Some (take n answers).
Proof.
  unfold App.answered. intros Hans. apply mapM_Some. apply mapM_Some_1 in Hans.
  now apply Forall2_take.
Qed.

Lemma sq_diffs_take_l (a b : list Z) :
  sq_diffs (take (length b) a) b = sq_diffs a b.
Proof.
  rewrite <- (sq_diffs_take (length b) a b) by lia.
  now rewrite firstn_all.
Qed.

(** What [search_page] does, on a chromadb collection, for a registered
    session whose answers are complete and a query that [get] finds. *)
Lemma search_page_found (query : string) (qs : list Question.t) (nm0 : string)
    (cs : list (option nat)) (cm0 : string) (uid : Z) (nm cm : string)
    (col : Chroma.collection) (log : list call) (scr : list App.shown)
    (answers : list Z) (found : User.t) :
  uid <> 0 -> query <> "" ->
  App.answered cs = Some answers ->
  (run Chroma.chroma (DB.get (PyStr query)) col).1.1 = Returned (Some found) ->
  App.search_page Chroma.chroma query true
    (App.mkWorld (App.mkSession qs nm0 cs cm0 uid (Some (nm, cm))) col log scr)
  = (App.Ok tt,
     App.mkWorld (App.mkSession qs nm0 cs cm0 uid (Some (nm, cm))) col
       (log ++ [Get [query] ["embeddings"; "metadatas"; "documents"]])
       ((scr ++ [App.Subheader "検索"])
        ++ [App.PrintResult found
              (Py.sum (sq_diffs answers (User.choices found)))])).
Proof.
  intros Huid Hquery Hans Hget.
  unfold App.search_page, App.andthen at 1, App.show at 1.
  unfold App.andthen at 1, App.read at 1. cbn [App.ss App.user_id].
  rewrite bool_decide_eq_false_2 by exact Huid.
  rewrite truthy_nonempty by exact Hquery.
  unfold App.andthen at 1, App.on_db at 1. cbn [App.db].
  rewrite run_get_chroma in Hget |- *. cbn [fst] in Hget. rewrite Hget.
  cbn [Py.str].
  unfold App.andthen at 1, App.read_user, App.andthen at 1, App.read at 1.
  cbn [App.ss App.user App.pure].
  unfold App.andthen at 1, App.read at 1. cbn [App.ss App.choices].
  erewrite answered_take by exact Hans.
  unfold App.andthen at 1, App.on_db at 1. cbn [App.db].
  rewrite distance_unfold. cbn [User.choices run]. rewrite sq_diffs_take_l.
  cbn [App.show App.ss App.db App.calls App.screen]. now rewrite app_nil_r.
Qed.

Lemma search_page_unregistered {St : Type} (h : collaborator St) (query : string)
    (w : App.world) :
  App.user_id (App.ss w) = 0 ->
  App.search_page h query true w
  = (App.Ok tt,
     App.mkWorld (App.ss w) (App.db w) (App.calls w)
       ((App.screen w ++ [App.Subheader "検索"])
        ++ [App.Alert App.msg_register_first])).
Proof.
  intros Huid. unfold App.search_page, App.andthen at 1, App.show at 1.
  unfold App.andthen at 1, App.read at 1. cbn [App.ss].
  now rewrite bool_decide_eq_true_2 by exact Huid.
Qed.

Lemma search_page_empty_query {St : Type} (h : collaborator St) (w : App.world) :
  App.user_id (App.ss w) <> 0 ->
  App.search_page h "" true w
  = (App.Ok tt,
     App.mkWorld (App.ss w) (App.db w) (App.calls w)
       ((App.screen w ++ [App.Subheader "検索"]) ++ [App.Alert App.msg_need_id])).
Proof.
  intros Huid. unfold App.search_page, App.andthen at 1, App.show at 1.
  unfold App.andthen at 1, App.read at 1. cbn [App.ss].
  now rewrite bool_decide_eq_false_2 by exact Huid.
Qed.

(** With identifier 0 in the session, or with an empty query, a pressed
    search only raises an alert: no call reaches the collection and the
    session is untouched. *)
Theorem search_page_guards {St : Type} (h : collaborator St) (query : string)
    (w : App.world)
    (Hguard : App.user_id (App.ss w) = 0 \/ query = "") :
  let out := App.search_page h query true w in
  out.1 = App.Ok tt
  /\ App.ss out.2 = App.ss w
  /\ App.db out.2 = App.db w
  /\ App.calls out.2 = App.calls w
  /\ exists message,
       App.screen out.2 = App.screen w ++ [App.Subheader "検索"; App.Alert message]
       /\ (message = App.msg_register_first \/ message = App.msg_need_id).
Proof.
  intros out. subst out.
  destruct (decide (App.user_id (App.ss w) = 0)) as [Huid|Huid].
  - rewrite search_page_unregistered by exact Huid.
    cbn [fst snd App.ss App.db App.calls App.screen].
    do 4 (split; [reflexivity|]). exists App.msg_register_first.
    rewrite <- app_assoc. split; [reflexivity | now left].
  - destruct Hguard as [Hzero| ->]; [congruence|].
    rewrite search_page_empty_query by exact Huid.
    cbn [fst snd App.ss App.db App.calls App.screen].
    do 4 (split; [reflexivity|]). exists App.msg_need_id.
    rewrite <- app_assoc. split; [reflexivity | now right].
Qed.

Lemma search_page_guards_witness :
  let out := App.search_page Chroma.chroma "42" true (fresh_world three_questions) in
  out.1 = App.Ok tt
  /\ App.ss out.2 = App.init_session three_questions
  /\ App.db out.2 = []
  /\ App.calls out.2 = []
  /\ exists message,
       App.screen out.2 = [] ++ [App.Subheader "検索"; App.Alert message]
       /\ (message = App.msg_register_first \/ message = App.msg_need_id).
Proof.
  apply (search_page_guards Chroma.chroma "42" (fresh_world three_questions)).
  now left.
Defined.

(** A registered session searching for an identifier under which
    nothing is stored is told that the user was not found: the one call
    is the [get], nothing fails and nothing changes. *)
Theorem search_page_unknown_id (query : string)
    (w : App.world (St := Chroma.collection))
    (Hregistered : App.user_id (App.ss w) <> 0)
    (Hquery : query <> "")
    (Hunknown : query ∉ Chroma.keys (App.db w)) :
  App.search_page Chroma.chroma query true w
  = (App.Ok tt,
     App.mkWorld (App.ss w) (App.db w)
       (App.calls w ++ [Get [query] ["embeddings"; "metadatas"; "documents"]])
       (App.screen w ++ [App.Subheader "検索"; App.Write App.msg_not_found])).
Proof.
  unfold App.search_page, App.andthen at 1, App.show at 1.
  unfold App.andthen at 1, App.read at 1. cbn [App.ss].
  rewrite bool_decide_eq_false_2 by exact Hregistered.
  rewrite truthy_nonempty by exact Hquery.
  unfold App.andthen at 1, App.on_db at 1. cbn [App.db].
  rewrite (get_unknown_id_absent_aux (App.db w) (PyStr query)) by exact Hunknown.
  unfold App.show. cbn [Py.str App.ss App.db App.calls App.screen].
  now rewrite <- app_assoc.
Qed.

Lemma search_page_unknown_id_witness :
  App.search_page Chroma.chroma "7" true registered_world
  = (App.Ok tt,
     App.mkWorld (App.ss registered_world) (App.db registered_world)
       (App.calls registered_world
        ++ [Get ["7"] ["embeddings"; "metadatas"; "documents"]])
       (App.screen registered_world
        ++ [App.Subheader "検索"; App.Write App.msg_not_found])).
Proof.
  apply (search_page_unknown_id "7" registered_world).
  - vm_compute. discriminate.
  - discriminate.
  - vm_compute. intros Hin. apply list_elem_of_singleton in Hin. discriminate Hin.
Defined.

(** Registering with a name and every question answered and then
    searching for the session's own identifier, typed as text, finds the
    record just written and shows it with distance 0; the search makes
    the one [get] call. *)
Theorem register_then_search_own_id (name_in : string)
    (radio : nat -> option string) (comment_in : string) (draw : nat)
    (w : App.world (St := Chroma.collection))
    (Hslots : length (App.choices (App.ss w)) = length (App.questions (App.ss w)))
    (Hname : name_in <> "")
    (Hselected : all_selected (App.questions (App.ss w)) radio) :
  let w1 := (App.register_page Chroma.chroma name_in radio comment_in true draw w).2 in
  let query := pretty (App.user_id (App.ss w1)) in
  let out := App.search_page Chroma.chroma query true w1 in
  exists answers,
    App.answered (App.choices (App.ss w1)) = Some answers
    /\ out.1 = App.Ok tt
    /\ App.calls out.2
       = App.calls w1 ++ [Get [query] ["embeddings"; "metadatas"; "documents"]]
    /\ App.screen out.2
       = App.screen w1
         ++ [App.Subheader "検索";
             App.PrintResult (User.init name_in answers comment_in) 0].
Proof.
  pose proof (all_selected_full _ _ Hselected) as Hfull.
  destruct (answered_full _ Hfull) as (answers & Hans & _).
  intros w1 query out. subst out query w1.
  rewrite register_page_widgets by exact Hslots. unfold after_widgets.
  exists answers.
  destruct (decide (App.user_id (App.ss w) = 0)) as [Hnew|Hold].
  - rewrite Hnew.
    rewrite (register_submit_first draw _ name_in _ comment_in _ _ _ _ answers)
      by assumption.
    cbn [snd App.ss App.user_id App.choices App.calls App.screen].
    split; [exact Hans|].
    rewrite (search_page_found _ _ _ _ _ _ _ _ _ _ _ answers
               (User.init name_in answers comment_in)).
    + cbn [fst snd App.calls App.screen User.init User.choices].
      rewrite sum_sq_diffs_refl, <- !app_assoc. repeat split.
    + pose proof (Nat.mod_upper_bound draw 999). lia.
    + intros Hempty. pose proof (str_of_int_truthy (1 + Z.of_nat (draw mod 999))) as Ht.
      rewrite Hempty in Ht. discriminate Ht.
    + exact Hans.
    + exact (get_after_put (App.db w) (PyStr (pretty (1 + Z.of_nat (draw mod 999))))
               name_in answers comment_in).
  - rewrite (register_submit_update draw _ name_in _ comment_in _ _ _ _ _ answers)
      by assumption.
    cbn [snd App.ss App.user_id App.choices App.calls App.screen].
    split; [exact Hans|].
    rewrite (search_page_found _ _ _ _ _ _ _ _ _ _ _ answers
               (User.init name_in answers comment_in)).
    + cbn [fst snd App.calls App.screen User.init User.choices].
      rewrite sum_sq_diffs_refl, <- !app_assoc. repeat split.
    + exact Hold.
    + intros Hempty. pose proof (str_of_int_truthy (App.user_id (App.ss w))) as Ht.
      rewrite Hempty in Ht. discriminate Ht.
    + exact Hans.
    + exact (get_after_put (App.db w) (PyStr (pretty (App.user_id (App.ss w))))
               name_in answers comment_in).
Qed.

Lemma register_then_search_own_id_witness :
  let w1 := (App.register_page Chroma.chroma "bob" always_c "" true 41
               (fresh_world three_questions)).2 in
  let query := pretty (App.user_id (App.ss w1)) in
  let out := App.search_page Chroma.chroma query true w1 in
  exists answers,
    App.answered (App.choices (App.ss w1)) = Some answers
    /\ out.1 = App.Ok tt
    /\ App.calls out.2
       = App.calls w1 ++ [Get [query] ["embeddings"; "metadatas"; "documents"]]
    /\ App.screen out.2
       = App.screen w1
         ++ [App.Subheader "検索"; App.PrintResult (User.init "bob" answers "") 0].
Proof.
  apply (register_then_search_own_id "bob" always_c "" 41
           (fresh_world three_questions)).
  - reflexivity.
  - discriminate.
  - exact three_questions_all_selected.
Defined.

(** ** The matching page *)

Lemma matching_page_registered {St : Type} (h : collaborator St)
    (qs : list Question.t) (nm0 : string) (cs : list (option nat)) (cm0 : string)
    (uid : Z) (nm cm : string) (d : St) (log : list call) (scr : list App.shown)
    (answers : list Z) :
  uid <> 0 -> App.answered cs = Some answers ->
  App.matching_page h true
    (App.mkWorld (App.mkSession qs nm0 cs cm0 uid (Some (nm, cm))) d log scr)
  = (let '(o, d', t) := run h (DB.search (User.mk nm answers cm)) d in
     match o with
     | Returned (found, distance) =>
         (App.Ok tt,
          App.mkWorld (App.mkSession qs nm0 cs cm0 uid (Some (nm, cm))) d' (log ++ t)
            (((scr ++ [App.Subheader "マッチング"])
              ++ [App.Write "↓ボタンを押してマッチング↓"])
             ++ [match found with
                 | Some user => App.PrintResult user distance
                 | None => App.Write App.msg_nobody
                 end]))
     | Raised e =>
         (App.Fail (App.Exn e),
          App.mkWorld (App.mkSession qs nm0 cs cm0 uid (Some (nm, cm))) d' (log ++ t)
            ((scr ++ [App.Subheader "マッチング"])
             ++ [App.Write "↓ボタンを押してマッチング↓"]))
     end).
Proof.
  intros Huid Hans.
  unfold App.matching_page, App.andthen at 1, App.show at 1.
  unfold App.andthen at 1, App.show at 1.
  unfold App.andthen at 1, App.read at 1. cbn [App.ss App.user_id].
  rewrite bool_decide_eq_false_2 by exact Huid.
  unfold App.andthen at 1, App.read_user, App.andthen at 1, App.read at 1.
  cbn [App.ss App.user App.pure].
  unfold App.andthen at 1, App.read at 1. cbn [App.ss App.choices].
  rewrite Hans. unfold App.andthen at 1, App.on_db at 1. cbn [App.db].
  destruct (run h (DB.search (User.mk nm answers cm)) d) as [[[[found distance]|e] d'] t];
    [|reflexivity].
  destruct found; reflexivity.
Qed.

(** With identifier 0 in the session a pressed matching only raises the
    alert asking to register first: no call reaches the collection and
    the session is untouched. *)
Theorem matching_page_needs_registration {St : Type} (h : collaborator St)
    (w : App.world)
    (Hnew : App.user_id (App.ss w) = 0) :
  App.matching_page h true w
  = (App.Ok tt,
     App.mkWorld (App.ss w) (App.db w) (App.calls w)
       (App.screen w
        ++ [App.Subheader "マッチング"; App.Write "↓ボタンを押してマッチング↓";
            App.Alert App.msg_register_first])).
Proof.
  unfold App.matching_page, App.andthen at 1, App.show at 1.
  unfold App.andthen at 1, App.show at 1.
  unfold App.andthen at 1, App.read at 1. cbn [App.ss].
  rewrite bool_decide_eq_true_2 by exact Hnew.
  unfold App.aleart, App.show. cbn [App.ss App.db App.calls App.screen].
  now rewrite <- !app_assoc.
Qed.

Lemma matching_page_needs_registration_witness :
  App.matching_page Chroma.chroma true (fresh_world three_questions)
  = (App.Ok tt,
     App.mkWorld (App.init_session three_questions) [] []
       ([] ++ [App.Subheader "マッチング"; App.Write "↓ボタンを押してマッチング↓";
               App.Alert App.msg_register_first])).
Proof.
  apply (matching_page_needs_registration Chroma.chroma (fresh_world three_questions)).
  reflexivity.
Defined.

(** A registered session with complete answers, matched against a
    collection of fewer than two entries, is told that nobody else is
    registered: the one call is the [count], no query is made. *)
Theorem matching_page_alone (w : App.world (St := Chroma.collection))
    (nm cm : string) (answers : list Z)
    (Hregistered : App.user_id (App.ss w) <> 0)
    (Huser : App.user (App.ss w) = Some (nm, cm))
    (Hanswers : App.answered (App.choices (App.ss w)) = Some answers)
    (Hsmall : (length (App.db w) < 2)%nat) :
  App.matching_page Chroma.chroma true w
  = (App.Ok tt,
     App.mkWorld (App.ss w) (App.db w) (App.calls w ++ [Count])
       (App.screen w
        ++ [App.Subheader "マッチング"; App.Write "↓ボタンを押してマッチング↓";
            App.Write App.msg_nobody])).
Proof.
  destruct w as [[qs nm0 cs cm0 uid u] col log scr].
  cbn [App.ss App.db App.calls App.screen App.user_id App.user App.choices] in *.
  subst u.
  rewrite (matching_page_registered Chroma.chroma qs nm0 cs cm0 uid nm cm col log scr
             answers) by assumption.
  rewrite run_search_small_chroma by exact Hsmall.
  now rewrite <- !app_assoc.
Qed.

Lemma matching_page_alone_witness :
  App.matching_page Chroma.chroma true registered_world
  = (App.Ok tt,
     App.mkWorld (App.ss registered_world) (App.db registered_world)
       (App.calls registered_world ++ [Count])
       (App.screen registered_world
        ++ [App.Subheader "マッチング"; App.Write "↓ボタンを押してマッチング↓";
            App.Write App.msg_nobody])).
Proof.
  apply (matching_page_alone registered_world "bob" User.no_answer [2; 2; 2]).
  - vm_compute. discriminate.
  - reflexivity.
  - reflexivity.
  - vm_compute. lia.
Defined.



(** ** Two registrations with the same draw *)

Lemma register_page_first_world (name_in : string) (radio : nat -> option string)
    (comment_in : string) (draw : nat) (qs : list Question.t)
    (col : Chroma.collection) :
  name_in <> "" -> all_selected qs radio ->
  exists answers,
    let z := 1 + Z.of_nat (draw mod 999) in
    let user := User.init name_in answers comment_in in
    let out := App.register_page Chroma.chroma name_in radio comment_in true draw
                 (App.mkWorld (App.init_session qs) col [] []) in
    out.1 = App.Ok tt
    /\ App.user_id (App.ss out.2) = z
    /\ App.db out.2 = Chroma.put (pretty z) (entry_of user) col.
Proof.
  intros Hname Hselected.
  pose proof (all_selected_full _ _ Hselected) as Hfull.
  destruct (answered_full _ Hfull) as (answers & Hans & _).
  exists answers. intros z user out. subst out.
  rewrite register_page_widgets by apply length_replicate.
  unfold after_widgets. cbn [App.ss App.init_session App.questions App.user_id
                             App.user App.db App.calls App.screen].
  rewrite (register_submit_first draw _ name_in _ comment_in _ _ _ _ answers)
    by assumption.
  repeat split.
Qed.

(** A newcomer whose draw equals that of an earlier registrant is given
    the same identifier although it is in use, and the newcomer's
    [upsert] replaces the earlier record: the collection keeps its keys
    and [get] on the shared identifier now returns the newcomer. *)
Theorem second_registration_can_overwrite (name1 name2 : string)
    (radio1 radio2 : nat -> option string) (comment1 comment2 : string)
    (draw : nat) (qs : list Question.t) (col : Chroma.collection)
    (Hname1 : name1 <> "") (Hname2 : name2 <> "")
    (Hselected1 : all_selected qs radio1)
    (Hselected2 : all_selected qs radio2) :
  let first := App.register_page Chroma.chroma name1 radio1 comment1 true draw
                 (App.mkWorld (App.init_session qs) col [] []) in
  let second := App.register_page Chroma.chroma name2 radio2 comment2 true draw
                  (App.mkWorld (App.init_session qs) (App.db first.2) [] []) in
  first.1 = App.Ok tt /\ second.1 = App.Ok tt
  /\ App.user_id (App.ss second.2) = App.user_id (App.ss first.2)
  /\ Chroma.keys (App.db second.2) = Chroma.keys (App.db first.2)
  /\ exists answers2,
       (run Chroma.chroma (DB.get (PyInt (App.user_id (App.ss first.2))))
          (App.db second.2)).1.1
       = Returned (Some (User.init name2 answers2 comment2)).
Proof.
  intros first second.
  destruct (register_page_first_world name1 radio1 comment1 draw qs col Hname1 Hselected1)
    as (answers1 & Hok1 & Hid1 & Hdb1).
  fold first in Hok1, Hid1, Hdb1.
  destruct (register_page_first_world name2 radio2 comment2 draw qs (App.db first.2)
              Hname2 Hselected2)
    as (answers2 & Hok2 & Hid2 & Hdb2).
  fold second in Hok2, Hid2, Hdb2.
  split; [exact Hok1|]. split; [exact Hok2|]. split; [congruence|]. split.
  - rewrite Hdb2, Hdb1. apply put_present, elem_of_keys_put. now left.
  - exists answers2. rewrite Hid1, Hdb2.
    exact (get_after_put (App.db first.2) (PyInt (1 + Z.of_nat (draw mod 999)))
             name2 answers2 comment2).
Qed.

Lemma second_registration_can_overwrite_witness :
  let first := App.register_page Chroma.chroma "bob" always_c "" true 41
                 (App.mkWorld (App.init_session three_questions) [] [] []) in
  let second := App.register_page Chroma.chroma "eve" always_c "x" true 41
                  (App.mkWorld (App.init_session three_questions) (App.db first.2) [] []) in
  first.1 = App.Ok tt /\ second.1 = App.Ok tt
  /\ App.user_id (App.ss second.2) = App.user_id (App.ss first.2)
  /\ Chroma.keys (App.db second.2) = Chroma.keys (App.db first.2)
  /\ exists answers2,
       (run Chroma.chroma (DB.get (PyInt (App.user_id (App.ss first.2))))
          (App.db second.2)).1.1
       = Returned (Some (User.init "eve" answers2 "x")).
Proof.
  apply (second_registration_can_overwrite "bob" "eve" always_c always_c "" "x" 41
           three_questions []).
  - discriminate.
  - discriminate.
  - exact three_questions_all_selected.
  - exact three_questions_all_selected.
Defined.
